(** * cpd_software_env: configuration normalizer and environment installer

    A shallow embedding of the normalization and installation core of
    [custom_lib/cpd_software_env.py]:

    - [_normalize_swenv]  (shorthand expansion of a configuration document),
    - [_install_swenv] and its helpers (search-path mutation, pip, assets),
    - [download_pending_assets], [_set_swenv_from_file], [load],
      and the import-time initialisation block,
    - [get_name], and [_cpd_conn_complete] with the two default
      connections built on it.

    Python values are a small tagged union, dictionaries are insertion-ordered
    association lists, [pathlib] paths are a root plus a list of components,
    and the module globals are one record threaded through a state-and-
    exception monad: a raised exception keeps the state mutated so far, as in
    Python. *)

From Stdlib Require Import String Ascii List ZArith Bool Lia.
Import ListNotations.

Set Warnings "-register-all".

Local Open Scope string_scope.
Local Open Scope Z_scope.

(* ====================================================================== *)
(** ** Strings: the [str] methods the module relies on *)
(* ====================================================================== *)

Module PyStr.

(** [s.startswith(p)] *)
Definition startswith (s p : string) : bool := String.prefix p s.

(** [s.split("/")]: never empty, [''.split('/') == ['']]. *)
Fixpoint split_slash (s : string) : list string :=
  match s with
  | EmptyString => [EmptyString]
  | String c s' =>
      if Ascii.eqb c "/" then EmptyString :: split_slash s'
      else match split_slash s' with
           | [] => [String c EmptyString]
           | x :: xs => String c x :: xs
           end
  end.

(** Number of leading separators, [len(s) - len(s.lstrip('/'))]. *)
Fixpoint leading_slashes (s : string) : nat :=
  match s with
  | String c s' => if Ascii.eqb c "/" then S (leading_slashes s') else O
  | EmptyString => O
  end.

(** ["/".join(l)] *)
Fixpoint join_slash (l : list string) : string :=
  match l with
  | [] => ""
  | [x] => x
  | x :: xs => x ++ "/" ++ join_slash xs
  end.

(** [s.rfind('.')], with [-1] when there is no dot; [pos] is the index of
    the first character of [s] in the whole string. *)
Fixpoint rfind_dot_from (s : string) (pos : Z) : Z :=
  match s with
  | EmptyString => -1
  | String c s' =>
      let r := rfind_dot_from s' (pos + 1) in
      if 0 <=? r then r else if Ascii.eqb c "." then pos else -1
  end.

Definition rfind_dot (s : string) : Z := rfind_dot_from s 0.

Definition len (s : string) : Z := Z.of_nat (String.length s).

(** [s[i:]] and [s[:i]] for [0 <= i]. *)
Definition slice_from (s : string) (i : Z) : string :=
  String.substring (Z.to_nat i) (String.length s - Z.to_nat i) s.
Definition slice_to (s : string) (i : Z) : string :=
  String.substring 0 (Z.to_nat i) s.

(** The characters of a string, as Python iterates over it. *)
Fixpoint chars (s : string) : list string :=
  match s with
  | EmptyString => []
  | String c s' => String c EmptyString :: chars s'
  end.

End PyStr.

(* ====================================================================== *)
(** ** [pathlib.PurePosixPath] *)
(* ====================================================================== *)

Module PyPath.

(** A parsed path: [root] is [""], ["/"] or ["//"]; [parts] are the
    components after the root, with empty and ["."] components dropped. *)
Record Path := MkPath { root : string; parts : list string }.

Definition keep_part (x : string) : bool :=
  negb (String.eqb x "") && negb (String.eqb x ".").

(** [Path(s)]: the posix flavour's [splitroot] followed by [parse_parts]. *)
Definition parse (s : string) : Path :=
  let n := PyStr.leading_slashes s in
  {| root := match n with
             | O => ""
             | 2%nat => "//"
             | _ => "/"
             end;
     parts := filter keep_part (PyStr.split_slash s) |}.

(** [a / b]: an absolute right operand replaces the left one. *)
Definition join (a b : Path) : Path :=
  if String.eqb (root b) "" then {| root := root a; parts := parts a ++ parts b |}
  else b.

(** [str(p)] *)
Definition to_str (p : Path) : string :=
  match root p, parts p with
  | EmptyString, [] => "."
  | r, ps => r ++ PyStr.join_slash ps
  end.

Definition is_absolute (p : Path) : bool := negb (String.eqb (root p) "").

(** [p.absolute()], with [cwd] the string [os.getcwd()] returns. *)
Definition absolute (cwd : string) (p : Path) : Path :=
  if is_absolute p then p else join (parse cwd) p.

(** [p.parent] *)
Definition parent (p : Path) : Path :=
  match parts p with
  | [] => p
  | ps => {| root := root p; parts := removelast ps |}
  end.

(** [p.name] *)
Definition name (p : Path) : string := last (parts p) "".

(** [p.suffix]: [name[i:]] when [0 < i < len(name) - 1], else [""]. *)
Definition suffix (p : Path) : string :=
  let n := name p in
  let i := PyStr.rfind_dot n in
  if (0 <? i) && (i <? PyStr.len n - 1) then PyStr.slice_from n i else "".

(** [p.stem]: [name[:i]] under the same test, else the whole name. *)
Definition stem (p : Path) : string :=
  let n := name p in
  let i := PyStr.rfind_dot n in
  if (0 <? i) && (i <? PyStr.len n - 1) then PyStr.slice_to n i else n.

End PyPath.

Import PyPath.

(* ====================================================================== *)
(** ** Python values and dictionaries *)
(* ====================================================================== *)

(** The values a configuration document loaded by [yaml.safe_load] or
    [json.load] is built from.  Mapping keys are strings; numeric scalars are
    represented by [VInt] (the code only tests their type and truth value).
    A document is a tree: two entries are never one shared object. *)
Inductive PyVal :=
| VNone
| VBool (b : bool)
| VInt (z : Z)
| VStr (s : string)
| VList (l : list PyVal)
| VDict (d : list (string * PyVal)).

(** A [dict]: keys in insertion order. *)
Definition Dict := list (string * PyVal).

(** [bool(v)] *)
Definition py_truthy (v : PyVal) : bool :=
  match v with
  | VNone => false
  | VBool b => b
  | VInt z => negb (z =? 0)
  | VStr s => negb (String.eqb s "")
  | VList l => match l with [] => false | _ => true end
  | VDict d => match d with [] => false | _ => true end
  end.

Definition is_dict (v : PyVal) : bool := match v with VDict _ => true | _ => false end.
Definition is_list (v : PyVal) : bool := match v with VList _ => true | _ => false end.

Module PyDict.

(** [d.get(k)], [None] rendered as [Coq.None]. *)
Fixpoint lookup (d : Dict) (k : string) : option PyVal :=
  match d with
  | [] => None
  | (k', v) :: d' => if String.eqb k' k then Some v else lookup d' k
  end.

(** [k in d] *)
Definition mem (d : Dict) (k : string) : bool :=
  match lookup d k with Some _ => true | None => false end.

(** [d.get(k, dflt)] *)
Definition get (d : Dict) (k : string) (dflt : PyVal) : PyVal :=
  match lookup d k with Some v => v | None => dflt end.

(** [d[k] = v]: an existing key keeps its position, a new key goes last. *)
Fixpoint set (d : Dict) (k : string) (v : PyVal) : Dict :=
  match d with
  | [] => [(k, v)]
  | (k', v') :: d' =>
      if String.eqb k' k then (k', v) :: d' else (k', v') :: set d' k v
  end.

(** [d.pop(k)], the remaining dictionary. *)
Fixpoint remove (d : Dict) (k : string) : Dict :=
  match d with
  | [] => []
  | (k', v') :: d' =>
      if String.eqb k' k then remove d' k else (k', v') :: remove d' k
  end.

Definition keys (d : Dict) : list string := map fst d.

End PyDict.

(** [l[idx] = v] for an index in range. *)
Fixpoint list_set (l : list PyVal) (idx : nat) (v : PyVal) : list PyVal :=
  match l, idx with
  | [], _ => []
  | _ :: l', O => v :: l'
  | x :: l', S i => x :: list_set l' i v
  end.

(* ====================================================================== *)
(** ** Exceptions and the state-and-exception monad *)
(* ====================================================================== *)

(** The exceptions the modelled code can raise.  [AssertionError ""] is a
    bare [assert]; [Exception args] carries the constructor arguments. *)
Inductive exn :=
| AssertionError (msg : string)
| ValueError (msg : string)
| TypeError
| AttributeError
| KeyError (key : string)
| RuntimeError
| Exception (args : list string)
| ExternalError (what : string).

Inductive result (A : Type) :=
| Ok (a : A)
| Raise (e : exn).
Arguments Ok {A} a.
Arguments Raise {A} e.

(** A computation over a mutable state [S]: the final state is returned
    whether or not an exception escaped. *)
Definition SE (S A : Type) : Type := S -> S * result A.

Definition ret {S A} (a : A) : SE S A := fun s => (s, Ok a).
Definition raise {S A} (e : exn) : SE S A := fun s => (s, Raise e).
Definition bind {S A B} (c : SE S A) (k : A -> SE S B) : SE S B :=
  fun s => match c s with
           | (s', Ok a) => k a s'
           | (s', Raise e) => (s', Raise e)
           end.
Definition modify {S} (f : S -> S) : SE S unit := fun s => (f s, Ok tt).
Definition gets {S A} (f : S -> A) : SE S A := fun s => (s, Ok (f s)).
Definition lift {S A} (r : result A) : SE S A := fun s => (s, r).

Declare Scope se_scope.
Delimit Scope se_scope with se.
Notation "x <- c ;; k" := (bind c (fun x => k))
  (at level 61, c at next level, right associativity) : se_scope.
Notation "c ;; k" := (bind c (fun _ => k))
  (at level 61, right associativity) : se_scope.
Local Open Scope se_scope.

(** [for x in l: body(x)], stopping at the first exception. *)
Fixpoint for_each {S A} (l : list A) (body : A -> SE S unit) : SE S unit :=
  match l with
  | [] => ret tt
  | x :: l' => body x ;; for_each l' body
  end.

(* ====================================================================== *)
(** ** The configuration normalizer: [_normalize_swenv] *)
(* ====================================================================== *)

(** The reserved path prefix. *)
Definition RESERVED : string := "cpd_software_env".

(** The text of the [ValueError] raised for a reserved path; [kind] is
    ["file"], ["module"] or ["asset"]. *)
Definition reserved_msg (kind path : string) : string :=
  "The prefix 'cpd_software_env' is reserved. Rename " ++ kind ++ " '" ++ path ++ "'".

(** What a normalization run mutates: the document, rewritten in place, and
    the lines it prints. *)
Record NormState := MkNorm { n_swenv : Dict; n_printed : list string }.

Definition n_print (line : string) : SE NormState unit :=
  modify (fun s => MkNorm (n_swenv s) (n_printed s ++ [line])).

Definition n_update (f : Dict -> Dict) : SE NormState unit :=
  modify (fun s => MkNorm (f (n_swenv s)) (n_printed s)).

(** Lines 207-231: [if singular in swenv: if plural in swenv: print(msg);
    assert False; swenv[plural] = swenv.pop(singular)]. *)
Definition fold_key (singular plural msg : string) : SE NormState unit :=
  d <- gets n_swenv ;;
  if PyDict.mem d singular then
    (if PyDict.mem d plural
     then n_print msg ;; raise (AssertionError "")
     else ret tt) ;;
    n_update (fun d =>
      PyDict.set (PyDict.remove d singular) plural (PyDict.get d singular VNone))
  else ret tt.

(** Lines 234-237: wrap a value that is not a list into a one-element list. *)
Definition coerce_list (ki : string) : SE NormState unit :=
  d <- gets n_swenv ;;
  match PyDict.lookup d ki with
  | Some v => if is_list v then ret tt
              else n_update (fun d => PyDict.set d ki (VList [v]))
  | None => ret tt
  end.

(** Lines 244-249 (and 259-264): the new value of [files[idx]].  A string
    becomes a fresh dictionary; a dictionary must have a true [path] and gets
    its [root] key (re)assigned; [swenv_path / item.get("path", "")] needs a
    string on the right. *)
Definition file_entry (swenv_path : Path) (item : PyVal) : result PyVal :=
  match item with
  | VStr s =>
      Ok (VDict [("name", VStr s); ("path", VStr s);
                 ("root", VStr (to_str swenv_path))])
  | VDict d =>
      if py_truthy (PyDict.get d "path" VNone) then
        match PyDict.get d "path" (VStr "") with
        | VStr p =>
            Ok (VDict (PyDict.set d "root"
                         (VStr (to_str (join swenv_path (parse p))))))
        | _ => Raise TypeError
        end
      else Raise (AssertionError "")
  | _ => Raise (AssertionError "")
  end.

(** Lines 272-285: the new value of [assets[idx]]; a dictionary stays. *)
Definition asset_entry (item : PyVal) : result PyVal :=
  match item with
  | VStr s =>
      if String.eqb (suffix (parse s)) ".py" then
        Ok (VDict [("name", VStr (stem (parse s))); ("path", VStr s);
                   ("asset_type", VStr "script")])
      else
        Ok (VDict [("name", VStr s); ("path", VStr s);
                   ("asset_type", VStr "data_asset")])
  | VDict _ => Ok item
  | _ => Raise (AssertionError "")
  end.

(** Lines 250-252, 265-267, 286-288:
    [if files[idx].get("path").startswith("cpd_software_env"): raise ValueError]. *)
Definition reserved_check (kind : string) (entry : PyVal) : result unit :=
  match entry with
  | VDict d =>
      match PyDict.get d "path" VNone with
      | VStr p =>
          if PyStr.startswith p RESERVED
          then Raise (ValueError (reserved_msg kind p))
          else Ok tt
      | _ => Raise AttributeError
      end
  | _ => Raise AttributeError
  end.

(** [for idx, item in enumerate(files): ...] over a list: [items] is what is
    still to be visited, [files] the list as mutated so far.  The list is
    returned as the loop leaves it, also when it raises. *)
Fixpoint entries_loop (step : PyVal -> result PyVal) (kind : string)
    (items : list PyVal) (idx : nat) (files : list PyVal)
  : list PyVal * result unit :=
  match items with
  | [] => (files, Ok tt)
  | item :: rest =>
      match step item with
      | Raise e => (files, Raise e)
      | Ok entry =>
          let files' := list_set files idx entry in
          match reserved_check kind entry with
          | Raise e => (files', Raise e)
          | Ok _ => entries_loop step kind rest (S idx) files'
          end
      end
  end.

(** The same loop over whatever [swenv.get(key, [])] returns.  [files] and
    [assets] are lists by then; [modules] is not coerced, so:
    - a non-empty string yields its first character, whose assignment
      [files[0] = ...] is a [TypeError];
    - a non-empty mapping yields its first key, [files[0] = ...] adds the
      integer key [0] (not representable here: the mapping is kept as it
      was), and the iteration then stops with a [RuntimeError] unless the
      reserved-prefix test raised first;
    - [None], booleans and numbers are not iterable. *)
Definition enumerate_entries (step : PyVal -> result PyVal) (kind : string)
    (v : PyVal) : PyVal * result unit :=
  match v with
  | VList l =>
      let '(l', r) := entries_loop step kind l 0 l in (VList l', r)
  | VStr s =>
      match PyStr.chars s with
      | [] => (v, Ok tt)
      | c :: _ =>
          match step (VStr c) with
          | Raise e => (v, Raise e)
          | Ok _ => (v, Raise TypeError)
          end
      end
  | VDict d =>
      match d with
      | [] => (v, Ok tt)
      | (k, _) :: _ =>
          match step (VStr k) with
          | Raise e => (v, Raise e)
          | Ok entry =>
              match reserved_check kind entry with
              | Raise e => (v, Raise e)
              | Ok _ => (v, Raise RuntimeError)
              end
          end
      end
  | _ => (v, Raise TypeError)
  end.

(** [files = swenv.get(key, []); for idx, item in enumerate(files): ...]:
    the list object belongs to the document, so the document sees every
    assignment, also those made before an exception. *)
Definition normalize_key (step : PyVal -> result PyVal) (kind key : string)
  : SE NormState unit :=
  d <- gets n_swenv ;;
  match PyDict.lookup d key with
  | None => ret tt
  | Some v =>
      let '(v', r) := enumerate_entries step kind v in
      n_update (fun d => PyDict.set d key v') ;;
      lift r
  end.

Definition msg_file_files : string :=
  "Error: you can use either key 'file' or 'files' but not both together.".
Definition msg_asset_assets : string :=
  "Error: you can use either key 'asset' or 'assets' but not both together.".

Section Normalizer.

(** [os.getcwd()], read by [Path.absolute]. *)
Variable cwd : string.

(** The body of [_normalize_swenv] (the [logging.info] call is not
    modelled).  The message printed for [module]/[modules] is the one the
    source prints there. *)
Definition normalize_body (swenv_path : Path) : SE NormState unit :=
  let swenv_path := absolute cwd swenv_path in
  fold_key "file" "files" msg_file_files ;;
  fold_key "module" "modules" msg_file_files ;;
  fold_key "asset" "assets" msg_asset_assets ;;
  for_each ["files"; "assets"; "pip"] coerce_list ;;
  normalize_key (file_entry swenv_path) "file" "files" ;;
  normalize_key (file_entry swenv_path) "module" "modules" ;;
  normalize_key asset_entry "asset" "assets".

(** [_normalize_swenv(swenv, swenv_path)]: the document as the call leaves
    it, the lines printed, and whether an exception escaped. *)
Definition _normalize_swenv (swenv : Dict) (swenv_path : Path)
  : NormState * result unit :=
  normalize_body swenv_path (MkNorm swenv []).

End Normalizer.

(* ====================================================================== *)
(** ** Process-wide state *)
(* ====================================================================== *)

(** The module globals, [sys.path], [os.environ], standard output and the
    file [tmp_requirements.txt] the pip step writes. *)
Record State := MkState {
  sys_path : list string;
  PkgMsgs : list string;
  stdout : list string;
  environ : list (string * string);
  tmp_requirements : string;
  PkgInitialized : bool;
  SoftwareEnv : PyVal;
  AssetsDownloadPending : PyVal;
  CurrentSwspecId : PyVal
}.

Definition set_sys_path (v : list string) (s : State) : State :=
  MkState v (PkgMsgs s) (stdout s) (environ s) (tmp_requirements s)
          (PkgInitialized s) (SoftwareEnv s) (AssetsDownloadPending s) (CurrentSwspecId s).
Definition set_PkgMsgs (v : list string) (s : State) : State :=
  MkState (sys_path s) v (stdout s) (environ s) (tmp_requirements s)
          (PkgInitialized s) (SoftwareEnv s) (AssetsDownloadPending s) (CurrentSwspecId s).
Definition set_stdout (v : list string) (s : State) : State :=
  MkState (sys_path s) (PkgMsgs s) v (environ s) (tmp_requirements s)
          (PkgInitialized s) (SoftwareEnv s) (AssetsDownloadPending s) (CurrentSwspecId s).
Definition set_environ (v : list (string * string)) (s : State) : State :=
  MkState (sys_path s) (PkgMsgs s) (stdout s) v (tmp_requirements s)
          (PkgInitialized s) (SoftwareEnv s) (AssetsDownloadPending s) (CurrentSwspecId s).
Definition set_tmp_requirements (v : string) (s : State) : State :=
  MkState (sys_path s) (PkgMsgs s) (stdout s) (environ s) v
          (PkgInitialized s) (SoftwareEnv s) (AssetsDownloadPending s) (CurrentSwspecId s).
Definition set_PkgInitialized (v : bool) (s : State) : State :=
  MkState (sys_path s) (PkgMsgs s) (stdout s) (environ s) (tmp_requirements s)
          v (SoftwareEnv s) (AssetsDownloadPending s) (CurrentSwspecId s).
Definition set_SoftwareEnv (v : PyVal) (s : State) : State :=
  MkState (sys_path s) (PkgMsgs s) (stdout s) (environ s) (tmp_requirements s)
          (PkgInitialized s) v (AssetsDownloadPending s) (CurrentSwspecId s).
Definition set_AssetsDownloadPending (v : PyVal) (s : State) : State :=
  MkState (sys_path s) (PkgMsgs s) (stdout s) (environ s) (tmp_requirements s)
          (PkgInitialized s) (SoftwareEnv s) v (CurrentSwspecId s).
Definition set_CurrentSwspecId (v : PyVal) (s : State) : State :=
  MkState (sys_path s) (PkgMsgs s) (stdout s) (environ s) (tmp_requirements s)
          (PkgInitialized s) (SoftwareEnv s) (AssetsDownloadPending s) v.

(** The state right after the global assignments of lines 112-138. *)
Definition fresh_state (path : list string) (env : list (string * string)) : State :=
  MkState path [] [] env "" false VNone VNone VNone.

Definition M (A : Type) : Type := SE State A.

(** [os.getenv(k)] *)
Fixpoint env_lookup (env : list (string * string)) (k : string) : option string :=
  match env with
  | [] => None
  | (k', v) :: env' => if String.eqb k' k then Some v else env_lookup env' k
  end.

(** [os.environ[k] = v] *)
Fixpoint env_set (env : list (string * string)) (k v : string) : list (string * string) :=
  match env with
  | [] => [(k, v)]
  | (k', v') :: env' =>
      if String.eqb k' k then (k', v) :: env' else (k', v') :: env_set env' k v
  end.

(** Truth value of [os.getenv(k)]: set and not empty. *)
Definition env_true (env : list (string * string)) (k : string) : bool :=
  match env_lookup env k with
  | Some v => negb (String.eqb v "")
  | None => false
  end.

(** [os.getenv(k, "")] *)
Definition env_get (env : list (string * string)) (k : string) : string :=
  match env_lookup env k with Some v => v | None => "" end.

Definition print (line : string) : M unit :=
  modify (fun s => set_stdout (stdout s ++ [line]) s).

(** [_my_print_msg(msg)]: append to the message buffer, echo when verbose. *)
Definition _my_print_msg (msg : string) : M unit :=
  modify (fun s => set_PkgMsgs (PkgMsgs s ++ [msg]) s) ;;
  env <- gets environ ;;
  if env_true env "CPD_SOFTWARE_ENV_VERBOSE" then print ("..swenv: " ++ msg)
  else ret tt.

(** [get_msgs()] *)
Definition get_msgs : M (list string) := gets PkgMsgs.

(** [_running_in_ws_jupyterlab()] *)
Definition _running_in_ws_jupyterlab (env : list (string * string)) : bool :=
  if PyStr.startswith (env_get env "JUPYTER_CONFIG_DIR") "/home/wsuser/.jupyter/lab"
  then true
  else if PyStr.startswith (env_get env "HOSTNAME") "jupyter-lab" then true
  else false.

(** The objects compared by [x in sys.path]: strings and [Path] objects. *)
Inductive PyObj :=
| OStr (s : string)
| OPath (p : Path).

Definition path_eqb (p q : Path) : bool :=
  String.eqb (root p) (root q) &&
  (if list_eq_dec string_dec (parts p) (parts q) then true else false).

(** [a == b]: [str.__eq__] and [PurePath.__eq__] both answer
    [NotImplemented] for an operand of the other type, so a string and a
    path are never equal. *)
Definition py_eq (a b : PyObj) : bool :=
  match a, b with
  | OStr s, OStr t => String.eqb s t
  | OPath p, OPath q => path_eqb p q
  | _, _ => false
  end.

(** [x in l] *)
Definition py_in (x : PyObj) (l : list PyObj) : bool := existsb (py_eq x) l.

(** [_install_swenv_file(thefile)], called with a [Path]. *)
Definition _install_swenv_file (thefile : Path) : M unit :=
  if String.eqb (suffix thefile) ".py" then
    let dir := to_str (parent thefile) in
    sp <- gets sys_path ;;
    if negb (py_in (OStr dir) (map OStr sp))
    then modify (fun s => set_sys_path (dir :: sys_path s) s)
    else ret tt
  else ret tt.

(** [_install_swenv_dir(autoinst_dir)], called with a [Path]: the membership
    test is on the [Path] object, the insertion on its string. *)
Definition _install_swenv_dir (autoinst_dir : Path) : M unit :=
  sp <- gets sys_path ;;
  if negb (py_in (OPath autoinst_dir) (map OStr sp))
  then modify (fun s => set_sys_path (to_str autoinst_dir :: sys_path s) s)
  else ret tt.

(** What [for x in v] iterates over. *)
Definition py_iter (v : PyVal) : result (list PyVal) :=
  match v with
  | VList l => Ok l
  | VStr s => Ok (map VStr (PyStr.chars s))
  | VDict d => Ok (map VStr (PyDict.keys d))
  | _ => Raise TypeError
  end.

(** [os.path.join(a, b)] for a relative [b]. *)
Definition os_path_join (a b : string) : string :=
  if String.eqb a "" then b
  else if String.eqb (PyStr.slice_from a (PyStr.len a - 1)) "/" then a ++ b
  else a ++ "/" ++ b.

Definition nl : string := String (ascii_of_nat 10) EmptyString.

Definition REQFILE : string := "tmp_requirements.txt".

(* ====================================================================== *)
(** ** The environment installer *)
(* ====================================================================== *)

(** The collaborators the installer calls but this development does not
    model: Python's [repr], the file system, the package installer, the
    platform's asset store and the two document readers. *)
Record Platform := MkPlatform {
  (** [repr(v)], used by f-strings and [print] for anything that is not a
      string; its exact text is not modelled. *)
  plat_repr : PyVal -> string;
  (** [get_path()]: the directory of the module file. *)
  plat_pkg_dir : string;
  (** [Path.is_dir], [Path.is_file] and [os.path.isfile]; the modelled code
      does not change what they answer ([tmp_requirements.txt] has its own
      field in the state). *)
  plat_is_dir : string -> bool;
  plat_is_file : string -> bool;
  (** [subprocess.run(cmd, check=False, stdout=PIPE, stderr=STDOUT)]: the
      return code and the captured combined output. *)
  plat_subprocess_run : list string -> State -> Z * string;
  (** [cpd_lookup_asset(conn, asset_type, name, version="latest")] and
      [cpd_download_asset_to_file(conn, asset=..., to_path=...)], each with
      the lines it prints. *)
  plat_lookup_asset : Dict -> PyVal -> PyVal -> State -> list string * result PyVal;
  plat_download_asset : Dict -> PyVal -> string -> State -> list string * result unit;
  (** [_read_swenv_yaml(filename)] and [json.load(open(path))]. *)
  plat_read_yaml : string -> result PyVal;
  plat_json_load : string -> result PyVal
}.

Section Installer.

Variable W : Platform.

Local Abbreviation py_repr := (plat_repr W).
Local Abbreviation pkg_dir := (plat_pkg_dir W).
Local Abbreviation is_dir := (plat_is_dir W).
Local Abbreviation is_file := (plat_is_file W).
Local Abbreviation subprocess_run := (plat_subprocess_run W).
Local Abbreviation cpd_lookup_asset := (plat_lookup_asset W).
Local Abbreviation cpd_download_asset_to_file := (plat_download_asset W).
Local Abbreviation read_swenv_yaml := (plat_read_yaml W).
Local Abbreviation json_load := (plat_json_load W).

(** [str(x)] inside an f-string or [print]. *)
Definition py_format (v : PyVal) : string :=
  match v with
  | VStr s => s
  | _ => py_repr v
  end.

Definition cmd_repr (cmd : list string) : string := py_repr (VList (map VStr cmd)).

(** [_run_pip(pip_cmd)] (logging calls are not modelled). *)
Definition _run_pip (pip_cmd : list string) : M unit :=
  _my_print_msg ("run " ++ cmd_repr pip_cmd) ;;
  run_pip <- gets (subprocess_run pip_cmd) ;;
  let '(returncode, out) := run_pip in
  if negb (returncode =? 0)
  then raise (Exception ["pip install failed: " ++ cmd_repr pip_cmd; out])
  else ret tt.

(** One iteration of the loop of [_map_pip_packages_list_to_reqfile]. *)
Definition reqfile_line (dep : PyVal) : M unit :=
  dep' <- match dep with
          | VDict d =>
              if py_truthy (PyDict.get d "path" VNone) then
                match PyDict.get d "path" VNone with
                | VStr p =>
                    let fullpath := join (join (parse pkg_dir) (parse p)) (parse "simple") in
                    ret (VStr ("--index-url file://" ++ to_str fullpath))
                | _ => raise TypeError
                end
              else
                print "Error: pip entry is a dict but the key 'path' is missing" ;;
                ret dep
          | _ => ret dep
          end ;;
  match dep' with
  | VStr line =>
      modify (fun s => set_tmp_requirements (tmp_requirements s ++ line ++ nl) s)
  | _ => raise (AssertionError "")
  end.

(** [_map_pip_packages_list_to_reqfile(piplist)]: opening the file for
    writing empties it. *)
Definition _map_pip_packages_list_to_reqfile (piplist : PyVal) : M string :=
  modify (set_tmp_requirements "") ;;
  deps <- lift (py_iter piplist) ;;
  for_each deps reqfile_line ;;
  ret REQFILE.

(** [_install_pip_packages_list(piplist)] *)
Definition _install_pip_packages_list (piplist : PyVal) : M unit :=
  let pip_conf := os_path_join pkg_dir "pip.conf" in
  (if is_file pip_conf then
     _my_print_msg ("Setting PIP_CONFIG_FILE=" ++ pip_conf) ;;
     modify (fun s => set_environ (env_set (environ s) "PIP_CONFIG_FILE" pip_conf) s)
   else ret tt) ;;
  reqfile_path <- _map_pip_packages_list_to_reqfile piplist ;;
  content <- gets tmp_requirements ;;
  _my_print_msg (reqfile_path ++ nl ++ "----" ++ nl ++ content ++ "----") ;;
  _run_pip ["pip"; "install"; "-r"; reqfile_path].

(** One iteration of the loop of [_provision_assets]. *)
Definition provision_asset (asset_ref : PyVal) : M unit :=
  env <- gets environ ;;
  (if env_true env "SPACE_ID"
   then _my_print_msg ("Found space id " ++ env_get env "SPACE_ID") else ret tt) ;;
  (if env_true env "USER_ACCESS_TOKEN"
   then _my_print_msg "Found an access token" else ret tt) ;;
  match asset_ref with
  | VDict d =>
      let path := PyDict.get d "path" VNone in
      if py_truthy path &&
         match PyDict.get d "asset_type" VNone with
         | VStr t => String.eqb t "script"
         | _ => false
         end
      then
        match path with
        | VStr p =>
            let dir_path := to_str (parent (join (parse pkg_dir) (parse p))) in
            sp <- gets sys_path ;;
            if negb (py_in (OStr p) (map OStr sp)) then
              _my_print_msg ("Adding path " ++ dir_path ++ " for "
                             ++ py_format (PyDict.get d "name" VNone)) ;;
              modify (fun s => set_sys_path (dir_path :: sys_path s) s)
            else ret tt
        | _ => raise TypeError
        end
      else ret tt
  | _ => raise AttributeError
  end.

(** [_provision_assets(asset_list)] *)
Definition _provision_assets (asset_list : PyVal) : M unit :=
  print ("_provision_assets " ++ py_format asset_list) ;;
  match asset_list with
  | VList l => for_each l provision_asset
  | _ => raise (AssertionError "")
  end.

(** The path of a mapping-form entry, lines 324-327. *)
Definition dict_entry_path (swenv : Dict) (p : Dict) : result Path :=
  if py_truthy (PyDict.get swenv "file_path_ignore_root" VNone) then
    match PyDict.lookup p "path" with
    | None => Raise (KeyError "path")
    | Some (VStr s) => Ok (parse s)
    | Some _ => Raise TypeError
    end
  else
    match PyDict.get p "root" (VStr "") with
    | VStr r =>
        match PyDict.lookup p "path" with
        | None => Raise (KeyError "path")
        | Some (VStr s) => Ok (join (parse r) (parse s))
        | Some _ => Raise TypeError
        end
    | _ => Raise TypeError
    end.

(** One iteration of the [files] loop of [_install_swenv], lines 318-342. *)
Definition install_file_entry (swenv : Dict) (swenv_path : Path) (p : PyVal) : M unit :=
  let name_msg :=
    match p with
    | VDict d => PyDict.get d "name" (PyDict.get d "path" VNone)
    | _ => p
    end in
  _my_print_msg ("set sys.path for '" ++ py_format name_msg ++ "'") ;;
  path <- match p with
          | VDict d =>
              path <- lift (dict_entry_path swenv d) ;;
              _my_print_msg ("dict_path " ++ to_str path) ;;
              ret path
          | VStr s => ret (parse s)
          | _ => raise TypeError
          end ;;
  let path := join swenv_path path in
  if is_dir (to_str path) then _install_swenv_dir path
  else if is_file (to_str path) then _install_swenv_file path
  else print ("Error in install swenv: file " ++ to_str path
              ++ " not found. Skipping entry.").

(** The [assets] branch of [_install_swenv], lines 347-365. *)
Definition install_assets (swenv : Dict) : M unit :=
  let asset_list := PyDict.get swenv "assets" (PyDict.get swenv "asset" VNone) in
  env <- gets environ ;;
  if py_truthy (PyDict.get swenv "assets_added_to_sdist" VNone) then
    _provision_assets asset_list
  else if _running_in_ws_jupyterlab env then
    _my_print_msg "Assuming that assets are already available locally in JupyterLab"
  else if negb (py_truthy (PyDict.get swenv "built_swenv" VNone)) then
    _my_print_msg "Assuming that assets are already available locally"
  else
    _my_print_msg "Warning: dynamic download of assets in deployment not yet supported" ;;
    _my_print_msg "...      call build(add={'assets'} in the project" ;;
    modify (set_AssetsDownloadPending asset_list).

Definition str_in (k : string) (l : list string) : bool :=
  existsb (String.eqb k) l.

(** The body of [for ki in swenv] in [_install_swenv]. *)
Definition install_key (swenv : Dict) (swenv_path : Path) (ki : string) : M unit :=
  if String.eqb ki "pip" then
    _install_pip_packages_list (PyDict.get swenv "pip" VNone)
  else if str_in ki ["conda"; "conda_channel"; "conda_dependencies";
                     "channel"; "dependencies"] then
    print "swenv conda not yet implemented"
  else if String.eqb ki "files" || String.eqb ki "file" then
    let file_val := PyDict.get swenv "files" (PyDict.get swenv "file" VNone) in
    let file_list := match file_val with VList l => l | _ => [file_val] end in
    for_each file_list (install_file_entry swenv swenv_path)
  else if String.eqb ki "modules" || String.eqb ki "module" then
    print "import module manually in the project"
  else if String.eqb ki "assets" || String.eqb ki "asset" then
    install_assets swenv
  else if negb (str_in ki ["name"; "base"; "file_path_ignore_root";
                           "assets_added_to_sdist"; "pip_added_to_sdist"]) then
    _my_print_msg ("swenv tag '" ++ ki ++ "' not recognized, ignoring the value ...")
  else ret tt.

(** [_install_swenv(swenv, swenv_path)] *)
Definition _install_swenv (swenv : Dict) (swenv_path : Path) : M unit :=
  for_each (PyDict.keys swenv) (install_key swenv swenv_path).

(** Run an asset-store call: its printed lines reach standard output. *)
Definition call_store {A} (f : State -> list string * result A) : M A :=
  fun s => let '(lines, r) := f s in (set_stdout (stdout s ++ lines) s, r).

(** One iteration of the loop of [_download_assets]; the path of the
    downloaded file is returned. *)
Definition download_asset (cpd_conn : Dict) (target_dir : Path) (asset_ref : PyVal)
  : M PyVal :=
  match asset_ref with
  | VDict d =>
      let asset_type := PyDict.get d "asset_type" (PyDict.get d "type" VNone) in
      if negb (py_truthy asset_type) then raise (AssertionError "") else
      let name := PyDict.get d "name" VNone in
      if negb (py_truthy name) then raise (AssertionError "") else
      asset <- call_store (cpd_lookup_asset cpd_conn asset_type name) ;;
      if negb (py_truthy asset) then
        raise (Exception ["Unable to find " ++ py_format asset_type
                          ++ " '" ++ py_format name ++ "'"])
      else
        match name with
        | VStr n =>
            let path := PyDict.get d "path" (VStr (n ++ ".py")) in
            _my_print_msg ("adding " ++ py_format asset_type ++ " " ++ py_format path) ;;
            match path with
            | VStr p =>
                call_store (cpd_download_asset_to_file cpd_conn asset
                              (to_str (join target_dir (parse p)))) ;;
                ret path
            | _ => raise TypeError
            end
        | _ => raise TypeError
        end
  | _ => raise (AssertionError "")
  end.

Fixpoint download_loop (cpd_conn : Dict) (target_dir : Path) (l : list PyVal)
  : M (list PyVal) :=
  match l with
  | [] => ret []
  | asset_ref :: l' =>
      path <- download_asset cpd_conn target_dir asset_ref ;;
      rest <- download_loop cpd_conn target_dir l' ;;
      ret (path :: rest)
  end.

(** [_download_assets(cpd_conn, asset_list, target_dir)] *)
Definition _download_assets (cpd_conn : Dict) (asset_list : PyVal) (target_dir : Path)
  : M (list PyVal) :=
  match cpd_conn with
  | [] => raise (AssertionError "")
  | _ =>
      match asset_list with
      | VList l => download_loop cpd_conn target_dir l
      | _ => raise (AssertionError "")
      end
  end.

Definition MISSING_TOKEN : string := "download assets: missing access token".
Definition MISSING_IDS : string := "download assets: missing space id and project id".

(** The connection [download_pending_assets] builds, lines 580-585. *)
Definition pending_conn (env : list (string * string)) : result Dict :=
  if env_true env "SPACE_ID" then Ok [("space_id", VStr (env_get env "SPACE_ID"))]
  else if env_true env "PROJECT_ID" then Ok [("project_id", VStr (env_get env "PROJECT_ID"))]
  else Raise (Exception [MISSING_IDS]).

(** [download_pending_assets()] *)
Definition download_pending_assets : M unit :=
  pending <- gets AssetsDownloadPending ;;
  if negb (py_truthy pending) then print "No assets to download" else
  (if is_list pending then ret tt else raise (AssertionError "")) ;;
  _my_print_msg ("Downloading assets " ++ py_format pending) ;;
  env <- gets environ ;;
  (if env_true env "USER_ACCESS_TOKEN" then ret tt
   else raise (AssertionError MISSING_TOKEN)) ;;
  cpd_conn <- lift (pending_conn env) ;;
  pending <- gets AssetsDownloadPending ;;
  _download_assets cpd_conn pending (parse pkg_dir) ;;
  modify (set_AssetsDownloadPending (VList [])).

(** Run [_normalize_swenv] on the document held in [SoftwareEnv]: the global
    names the very dictionary that is rewritten in place, and the printed
    lines go to standard output. *)
Definition normalize_global (cwd : string) (swenv : PyVal) (swenv_path : Path) : M unit :=
  match swenv with
  | VDict d =>
      let '(n, r) := _normalize_swenv cwd d swenv_path in
      modify (fun s => set_stdout (stdout s ++ n_printed n)
                         (set_SoftwareEnv (VDict (n_swenv n)) s)) ;;
      lift r
  | _ => raise (AssertionError "")
  end.

(** [_install_swenv] on the value held in [SoftwareEnv]. *)
Definition install_global (swenv_path : Path) : M unit :=
  swenv <- gets SoftwareEnv ;;
  match swenv with
  | VDict d => _install_swenv d swenv_path
  | _ => raise (AssertionError "")
  end.

(** [default_swenv()] *)
Definition default_swenv : M (PyVal * Path) :=
  let my_dir := parse pkg_dir in
  let user_swenv_file_json := join my_dir (parse "cpd_software_env.yaml.json") in
  if is_file (to_str user_swenv_file_json) then
    doc <- lift (json_load (to_str user_swenv_file_json)) ;;
    ret (doc, my_dir)
  else
    let user_swenv_file := join my_dir (parse "cpd_software_env.yaml") in
    if is_file (to_str user_swenv_file) then
      swenv <- lift (read_swenv_yaml (to_str user_swenv_file)) ;;
      _my_print_msg "read swenv file 'cpd_software_env.yaml'" ;;
      ret (swenv, my_dir)
    else
      let autoinst_dir := join my_dir (parse "cpd_software_env") in
      if is_dir (to_str autoinst_dir) then
        let swenv :=
          VDict [("file", VList [VDict [("path", VStr "cpd_software_env");
                                        ("root", VStr (to_str my_dir))]])] in
        print ("Implicit swenv from directory " ++ py_format swenv) ;;
        ret (swenv, my_dir)
      else ret (VDict [], my_dir).

(** The import-time block, lines 592-601. *)
Definition module_init (cwd : string) : M unit :=
  initialized <- gets PkgInitialized ;;
  if negb initialized then
    r <- default_swenv ;;
    let '(swenv, swenv_path) := r in
    modify (set_SoftwareEnv swenv) ;;
    if py_truthy swenv then
      print ("Setting up  " ++ to_str swenv_path) ;;
      normalize_global cwd swenv swenv_path ;;
      install_global swenv_path ;;
      modify (set_PkgInitialized true)
    else ret tt
  else ret tt.

(** [_set_swenv_from_file(fpath)] *)
Definition _set_swenv_from_file (cwd : string) (fpath : string) : M unit :=
  initialized <- gets PkgInitialized ;;
  if initialized then print "Error: Software Env is already initialized." else
  current <- gets SoftwareEnv ;;
  (if py_truthy current then raise (AssertionError "") else ret tt) ;;
  modify (set_CurrentSwspecId VNone) ;;
  let fpath := parse fpath in
  swenv <- lift (read_swenv_yaml (to_str fpath)) ;;
  modify (set_SoftwareEnv swenv) ;;
  _my_print_msg ("set from file: " ++ py_format swenv) ;;
  (if py_truthy swenv then ret tt else raise (AssertionError "")) ;;
  normalize_global cwd swenv (parent fpath) ;;
  install_global (parent fpath) ;;
  modify (set_PkgInitialized true).

(** [setup(filepath)] *)
Definition setup (cwd : string) (filepath : string) : M unit :=
  _set_swenv_from_file cwd filepath.

(** [_set_swenv_from_jsonfile(path)] *)
Definition _set_swenv_from_jsonfile (path : string) : M unit :=
  doc <- lift (json_load path) ;;
  modify (set_SoftwareEnv doc).

(** [load(name)] *)
Definition load (name : string) : M unit :=
  _set_swenv_from_jsonfile
    ("/project_data/data_asset/cpd_software_env_saved/saved_" ++ name ++ ".json").

End Installer.

(* ====================================================================== *)
(** ** Notions used in the statements *)
(* ====================================================================== *)

(** The loop without its index: the list as the loop leaves it and the
    outcome. *)
Fixpoint loop_spec (step : PyVal -> result PyVal) (kind : string)
    (items : list PyVal) : list PyVal * result unit :=
  match items with
  | [] => ([], Ok tt)
  | item :: rest =>
      match step item with
      | Raise e => (item :: rest, Raise e)
      | Ok entry =>
          match reserved_check kind entry with
          | Raise e => (entry :: rest, Raise e)
          | Ok _ =>
              let '(l, r) := loop_spec step kind rest in (entry :: l, r)
          end
      end
  end.

(** What one accepted entry looks like. *)
Definition accepted (step : PyVal -> result PyVal) (kind : string)
    (item entry : PyVal) : Prop :=
  step item = Ok entry /\ reserved_check kind entry = Ok tt.

(** The path an entry declares: the string itself, or the [path] value of a
    mapping. *)
Definition entry_path (item : PyVal) : option string :=
  match item with
  | VStr s => Some s
  | VDict d =>
      match PyDict.lookup d "path" with
      | Some (VStr p) => Some p
      | _ => None
      end
  | _ => None
  end.

(** An entry whose path begins with the reserved prefix. *)
Definition reserved_entry (item : PyVal) : bool :=
  match entry_path item with
  | Some p => PyStr.startswith p RESERVED
  | None => false
  end.

Definition conflict (d : Dict) (singular plural : string) : bool :=
  PyDict.mem d singular && PyDict.mem d plural.

Definition fold_doc (d : Dict) (singular plural : string) : Dict :=
  if PyDict.mem d singular
  then PyDict.set (PyDict.remove d singular) plural (PyDict.get d singular VNone)
  else d.

Definition coerce (v : PyVal) : PyVal := if is_list v then v else VList [v].

Definition coerce_doc (d : Dict) (ki : string) : Dict :=
  match PyDict.lookup d ki with
  | Some v => if is_list v then d else PyDict.set d ki (VList [v])
  | None => d
  end.

(** The value given for a singular/plural pair of keys. *)
Definition given (d : Dict) (singular plural : string) : option PyVal :=
  match PyDict.lookup d singular with
  | Some v => Some v
  | None => PyDict.lookup d plural
  end.

(** The document after key folding and list coercion. *)
Definition prelude (d : Dict) : Dict :=
  coerce_doc
    (coerce_doc
       (coerce_doc
          (fold_doc (fold_doc (fold_doc d "file" "files") "module" "modules")
                    "asset" "assets")
          "files")
       "assets")
    "pip".

Definition no_conflict (d : Dict) : bool :=
  negb (conflict d "file" "files") && negb (conflict d "module" "modules")
  && negb (conflict d "asset" "assets").

(** The three entry loops, run on the document left by the prelude. *)
Definition loops (swenv_path : Path) : SE NormState unit :=
  normalize_key (file_entry swenv_path) "file" "files" ;;
  normalize_key (file_entry swenv_path) "module" "modules" ;;
  normalize_key asset_entry "asset" "assets".

(** Outcome and effect of one entry loop on the document. *)
Definition stage_outcome (step : PyVal -> result PyVal) (kind : string)
    (ov : option PyVal) : result unit :=
  match ov with
  | None => Ok tt
  | Some v => snd (enumerate_entries step kind v)
  end.

Definition stage_doc (step : PyVal -> result PyVal) (kind key : string) (d : Dict) : Dict :=
  match PyDict.lookup d key with
  | None => d
  | Some v => PyDict.set d key (fst (enumerate_entries step kind v))
  end.

(** The three kinds of entry lists. *)
Inductive Kind := KFile | KModule | KAsset.

Definition kind_name (k : Kind) : string :=
  match k with KFile => "file" | KModule => "module" | KAsset => "asset" end.

Definition kind_plural (k : Kind) : string :=
  match k with KFile => "files" | KModule => "modules" | KAsset => "assets" end.

Definition kind_step (base : Path) (k : Kind) : PyVal -> result PyVal :=
  match k with KFile | KModule => file_entry base | KAsset => asset_entry end.

(** The value the loop of a kind iterates over, read off the raw document:
    [files] and [assets] are coerced to lists, [modules] is not. *)
Definition stage_value (d : Dict) (k : Kind) : option PyVal :=
  match k with
  | KFile => option_map coerce (given d "file" "files")
  | KModule => given d "module" "modules"
  | KAsset => option_map coerce (given d "asset" "assets")
  end.

Definition kind_outcome (base : Path) (d : Dict) (k : Kind) : result unit :=
  stage_outcome (kind_step base k) (kind_name k) (stage_value d k).

(** The entries of a value that is coerced to a list. *)
Definition as_list (v : PyVal) : list PyVal :=
  match v with VList l => l | _ => [v] end.

(** The listed entries of a kind in a raw document: the value under the
    singular or the plural key; a [files] or [assets] value that is not a
    list counts as one entry. *)
Definition entries_of (k : Kind) (v : PyVal) : option (list PyVal) :=
  match k with
  | KModule => match v with VList l => Some l | _ => None end
  | _ => Some (as_list v)
  end.

Definition listed (d : Dict) (k : Kind) (l : list PyVal) : Prop :=
  exists key v,
    (key = kind_name k \/ key = kind_plural k) /\
    PyDict.lookup d key = Some v /\ entries_of k v = Some l.

(** The loops that run before the loop of a kind. *)
Definition earlier (k : Kind) : list Kind :=
  match k with
  | KFile => []
  | KModule => [KFile]
  | KAsset => [KFile; KModule]
  end.




(** The state after [_my_print_msg(msg)]. *)
Definition log_msg (msg : string) (st : State) : State :=
  let st1 := set_PkgMsgs (PkgMsgs st ++ [msg]) st in
  if env_true (environ st) "CPD_SOFTWARE_ENV_VERBOSE"
  then set_stdout (stdout st1 ++ ["..swenv: " ++ msg]) st1
  else st1.

(** A platform for the concrete runs below: the installer exits with
    [rc] and prints [out]; [dirs] and [files] are the existing directories
    and files; the asset store finds and fetches everything; [yaml] and
    [json] are the documents the readers return. *)
Definition in_list (l : list string) (s : string) : bool := existsb (String.eqb s) l.

Definition demo_platform (rc : Z) (out : string) (dirs files : list string)
    (yaml json : PyVal) : Platform :=
  {| plat_repr := fun _ => "<repr>";
     plat_pkg_dir := "/pkg";
     plat_is_dir := in_list dirs;
     plat_is_file := in_list files;
     plat_subprocess_run := fun _ _ => (rc, out);
     plat_lookup_asset := fun _ _ _ _ => ([], Ok (VDict [("href", VStr "/v2/assets/1")]));
     plat_download_asset := fun _ _ _ _ => ([], Ok tt);
     plat_read_yaml := fun _ => Ok yaml;
     plat_json_load := fun _ => Ok json |}.

(** The line printed for an entry that is neither a directory nor a file. *)
Definition not_found_line (path : string) : string :=
  "Error in install swenv: file " ++ path ++ " not found. Skipping entry.".

(** The path an entry stands for, before it is joined to [swenv_path]. *)
Definition resolved (swenv : Dict) (p : PyVal) : result Path :=
  match p with
  | VDict d => dict_entry_path swenv d
  | VStr s => Ok (parse s)
  | _ => Raise TypeError
  end.

(** The messages [_my_print_msg] receives for one file entry. *)
Definition progress_msgs (W : Platform) (p : PyVal) (path : Path) : list string :=
  match p with
  | VDict d =>
      ["set sys.path for '"
         ++ py_format W (PyDict.get d "name" (PyDict.get d "path" VNone)) ++ "'";
       "dict_path " ++ to_str path]
  | _ => ["set sys.path for '" ++ py_format W p ++ "'"]
  end.

Definition log_msgs (msgs : list string) (st : State) : State :=
  fold_left (fun s m => log_msg m s) msgs st.

Definition ALREADY_INITIALIZED : string := "Error: Software Env is already initialized.".

Definition saved_json (name : string) : string :=
  "/project_data/data_asset/cpd_software_env_saved/saved_" ++ name ++ ".json".

(** A computation that, when it returns, leaves the flag set. *)
Definition sets_flag {A} (c : M A) : Prop :=
  forall s s' a, c s = (s', Ok a) -> PkgInitialized s' = true.

(** Two states with the same pending list and the same notebook signal. *)
Definition frame (s s' : State) : Prop :=
  AssetsDownloadPending s' = AssetsDownloadPending s /\
  _running_in_ws_jupyterlab (environ s') = _running_in_ws_jupyterlab (environ s).

(** A computation that changes neither, whatever its outcome. *)
Definition keeps {A} (c : M A) : Prop := forall s, frame s (fst (c s)).




(** The state in which the pip step of a list of requirement strings calls
    the installer: [PIP_CONFIG_FILE] set when [pip.conf] exists, the
    requirements file written, its content logged. *)
Fixpoint req_lines (reqs : list string) : string :=
  match reqs with
  | [] => ""
  | r :: reqs' => r ++ nl ++ req_lines reqs'
  end.

Definition pip_conf_state (W : Platform) (st : State) : State :=
  let pip_conf := os_path_join (plat_pkg_dir W) "pip.conf" in
  if plat_is_file W pip_conf then
    let st' := log_msg ("Setting PIP_CONFIG_FILE=" ++ pip_conf) st in
    set_environ (env_set (environ st') "PIP_CONFIG_FILE" pip_conf) st'
  else st.

Definition pip_ready (W : Platform) (reqs : list string) (st : State) : State :=
  log_msg (REQFILE ++ nl ++ "----" ++ nl ++ req_lines reqs ++ "----")
          (set_tmp_requirements (req_lines reqs) (pip_conf_state W st)).

Definition PIP_INSTALL : list string := ["pip"; "install"; "-r"; REQFILE].

(** A computation whose final state, whatever the outcome, is related to
    its initial state. *)
Definition preserves {A} (R : State -> State -> Prop) (c : M A) : Prop :=
  forall s, R s (fst (c s)).

(** The footprint of the installer on the life-cycle globals and the two
    message streams: the document, the flag and the cached specification
    are kept, messages and printed lines are only added. *)
Definition grows (s s' : State) : Prop :=
  SoftwareEnv s' = SoftwareEnv s /\
  PkgInitialized s' = PkgInitialized s /\
  CurrentSwspecId s' = CurrentSwspecId s /\
  (exists more, PkgMsgs s' = (PkgMsgs s ++ more)%list) /\
  (exists out, stdout s' = (stdout s ++ out)%list).

(** Nothing installed: same search path, pending list, environment and
    requirements file. *)
Definition quiet (s s' : State) : Prop :=
  sys_path s' = sys_path s /\
  AssetsDownloadPending s' = AssetsDownloadPending s /\
  environ s' = environ s /\
  tmp_requirements s' = tmp_requirements s.

(** The keys for which [_install_swenv] does more than report. *)
Definition ACTIONABLE : list string := ["pip"; "files"; "file"; "assets"; "asset"].

(** A requirement entry the requirements file cannot take: neither a
    string nor a mapping with a true [path]. *)
Definition bad_requirement (v : PyVal) : bool :=
  match v with
  | VStr _ => false
  | VDict d => negb (py_truthy (PyDict.get d "path" VNone))
  | _ => true
  end.

(** What [_download_assets] returns for an asset reference: its [path], or
    its name with [.py] appended. *)
Definition downloaded_as (asset_ref path : PyVal) : Prop :=
  exists d n p,
    asset_ref = VDict d /\ PyDict.get d "name" VNone = VStr n /\ n <> "" /\
    path = VStr p /\ PyDict.get d "path" (VStr (n ++ ".py")) = VStr p.

(** The states in which the assets branch does not defer a download. *)
Definition not_deferring (swenv : Dict) (s : State) : Prop :=
  py_truthy (PyDict.get swenv "assets_added_to_sdist" VNone) = true \/
  _running_in_ws_jupyterlab (environ s) = true \/
  py_truthy (PyDict.get swenv "built_swenv" VNone) = false.

(* ====================================================================== *)
(** ** The name of the environment: [get_name] *)
(* ====================================================================== *)

Definition DEPRECATED : string := "parameter is deprecated".

(** [get_name(custom_name=None)], lines 1867-1884. *)
Definition get_name (custom_name : PyVal) : M PyVal :=
  (if py_truthy custom_name then raise (AssertionError DEPRECATED) else ret tt) ;;
  if py_truthy custom_name then ret custom_name else
  swenv <- gets SoftwareEnv ;;
  if negb (py_truthy swenv) then raise (AssertionError "") else
  match swenv with
  | VDict d =>
      if py_truthy (PyDict.get d "name" VNone) then ret (PyDict.get d "name" VNone)
      else
        env <- gets environ ;;
        ret (VStr (match env_lookup env "PROJECT_NAME" with
                   | Some v => v
                   | None => "cpd_software_env"
                   end))
  | _ => raise (AssertionError "")
  end.

(** The three places [default_swenv] looks at, next to the module file. *)
Definition default_json (W : Platform) : string :=
  to_str (join (parse (plat_pkg_dir W)) (parse "cpd_software_env.yaml.json")).
Definition default_yaml (W : Platform) : string :=
  to_str (join (parse (plat_pkg_dir W)) (parse "cpd_software_env.yaml")).
Definition default_dir (W : Platform) : string :=
  to_str (join (parse (plat_pkg_dir W)) (parse "cpd_software_env")).

(** A normalizer step that never empties the document. *)
Definition keeps_nonempty {A} (c : SE NormState A) : Prop :=
  forall s, n_swenv s <> [] -> n_swenv (fst (c s)) <> [].

(* ====================================================================== *)
(** ** Connection dictionaries: [_cpd_conn_complete] *)
(* ====================================================================== *)

(** [s.lower()] as [startswith("bearer ")] sees it: the ASCII capitals are
    folded, every other character is left alone (none of them lowers to a
    letter of that prefix). *)
Definition ascii_lower (c : ascii) : ascii :=
  let n := nat_of_ascii c in
  if ((65 <=? n) && (n <=? 90))%nat then ascii_of_nat (n + 32) else c.

Fixpoint lower (s : string) : string :=
  match s with
  | EmptyString => EmptyString
  | String c s' => String (ascii_lower c) (lower s')
  end.

(** What [_cpd_conn_complete] is given: a dictionary, or a client object,
    of which it reads [wml_credentials], [default_project_id] and
    [default_space_id]. *)
Inductive AccessInfo :=
| InfoDict (d : Dict)
| InfoClient (wml_credentials : Dict) (default_project_id default_space_id : PyVal).

(** [os.getenv(k)] *)
Definition getenv (env : list (string * string)) (k : string) : PyVal :=
  match env_lookup env k with Some v => VStr v | None => VNone end.

Definition DEFAULT_URL : string := "https://internal-nginx-svc:12443".

(** [os.getenv("RUNTIME_ENV_APSX_URL", "https://internal-nginx-svc:12443")] *)
Definition env_url (env : list (string * string)) : PyVal :=
  VStr (match env_lookup env "RUNTIME_ENV_APSX_URL" with
        | Some v => v
        | None => DEFAULT_URL
        end).

(** Lines 2771-2775: the token of the environment, a leading ["bearer "]
    in any letter case cut off. *)
Definition env_token (env : list (string * string)) : PyVal :=
  let token := match env_lookup env "USER_ACCESS_TOKEN" with
               | Some v => VStr v
               | None => getenv env "PROJECT_ACCESS_TOKEN"
               end in
  match token with
  | VStr t =>
      if py_truthy token && PyStr.startswith (lower t) "bearer "
      then VStr (PyStr.slice_from t 7) else token
  | _ => token
  end.

(** The truth value of [d.get(k)]. *)
Definition has (d : Dict) (k : string) : bool := py_truthy (PyDict.get d k VNone).

(** Step 1, lines 2750-2764: a copy of the dictionary, or the properties of
    the client. *)
Definition conn_init (access_info : AccessInfo) : Dict :=
  match access_info with
  | InfoDict d => d
  | InfoClient cred pid sid =>
      let c := PyDict.set [] "url" (PyDict.get cred "url" VNone) in
      let c := PyDict.set c "token" (PyDict.get cred "token" VNone) in
      let c := if py_truthy pid then PyDict.set c "project_id" pid else c in
      if py_truthy sid then PyDict.set c "space_id" sid else c
  end.

(** Step 2, lines 2768-2788: the blanks filled from the environment. *)
Definition conn_fill (env : list (string * string)) (cpd_conn : Dict) : Dict :=
  let cpd_conn :=
    if negb (has cpd_conn "url") then PyDict.set cpd_conn "url" (env_url env)
    else cpd_conn in
  let cpd_conn :=
    if negb (has cpd_conn "token") then PyDict.set cpd_conn "token" (env_token env)
    else cpd_conn in
  let cpd_conn :=
    if negb (has cpd_conn "space_id") && negb (has cpd_conn "project_id")
    then PyDict.set cpd_conn "space_id" (getenv env "SPACE_ID")
    else cpd_conn in
  let cpd_conn :=
    if negb (has cpd_conn "project_id") && negb (has cpd_conn "space_id")
    then PyDict.set cpd_conn "project_id" (getenv env "PROJECT_ID")
    else cpd_conn in
  PyDict.set cpd_conn "is_complete" (VBool true).

(** [_cpd_conn_complete(access_info)], under the environment [env]. *)
Definition _cpd_conn_complete (env : list (string * string)) (access_info : AccessInfo)
  : Dict :=
  conn_fill env (conn_init access_info).

(** [_cpd_conn_default_project()] and [_cpd_conn_default_space()]:
    [os.environ[k]] raises for a variable that is not set. *)
Definition _cpd_conn_default_project (env : list (string * string)) : result Dict :=
  match env_lookup env "PROJECT_ID" with
  | Some v => Ok (_cpd_conn_complete env (InfoDict [("project_id", VStr v)]))
  | None => Raise (KeyError "PROJECT_ID")
  end.

Definition _cpd_conn_default_space (env : list (string * string)) : result Dict :=
  match env_lookup env "SPACE_ID" with
  | Some v => Ok (_cpd_conn_complete env (InfoDict [("space_id", VStr v)]))
  | None => Raise (KeyError "SPACE_ID")
  end.

(** The keys [_cpd_conn_complete] may assign. *)
Definition CONN_KEYS : list string :=
  ["url"; "token"; "space_id"; "project_id"; "is_complete"].

(* ====================================================================== *)
(** ** The path model on the shapes of paths the module meets *)
(* ====================================================================== *)

Example path_str_examples :
  map (fun s => to_str (parse s))
      [""; "."; "/"; "//x"; "///x/"; "a//b/./c.py"; "a/../b"; "./a"; "foo.py/"]
  = ["."; "."; "/"; "//x"; "/x"; "a/b/c.py"; "a/../b"; "a"; "foo.py"].
Proof. reflexivity. Qed.

Example path_join_examples :
  map (fun ab => to_str (join (parse (fst ab)) (parse (snd ab))))
      [("/base", ""); ("/base", "/abs"); ("/base", "a.py"); ("rel", "x"); ("", "")]
  = ["/base"; "/abs"; "/base/a.py"; "rel/x"; "."].
Proof. reflexivity. Qed.

Example path_suffix_examples :
  map (fun s => (suffix (parse s), stem (parse s), to_str (parent (parse s))))
      ["d/foo.py"; ".py"; "a.b.py"; "foo."; "a.tar.gz"; "x/.hid.py"; "/base"]
  = [(".py", "foo", "d"); ("", ".py", "."); (".py", "a.b", "."); ("", "foo.", ".");
     (".gz", "a.tar", "."); (".py", ".hid", "x"); ("", "base", "/")].
Proof. reflexivity. Qed.

(** The specification's list-coercion and end-to-end examples. *)
Example normalize_examples :
  _normalize_swenv "/work" [("pip", VStr "numpy")] (parse "proj") =
    (MkNorm [("pip", VList [VStr "numpy"])] [], Ok tt) /\
  _normalize_swenv "/work" [("files", VList [VStr "lib.py"]);
                            ("pip", VList [VStr "requests==2.0"])] (parse "proj") =
    (MkNorm [("files", VList [VDict [("name", VStr "lib.py"); ("path", VStr "lib.py");
                                     ("root", VStr "/work/proj")]]);
             ("pip", VList [VStr "requests==2.0"])] [], Ok tt).
Proof. split; reflexivity. Qed.

(* ====================================================================== *)
(** ** Lemmas: dictionaries and the monad *)
(* ====================================================================== *)

Lemma lookup_set_same (d : Dict) k v : PyDict.lookup (PyDict.set d k v) k = Some v.
Proof.
  induction d as [|[k' v'] d IH]; simpl.
  - now rewrite String.eqb_refl.
  - destruct (String.eqb_spec k' k) as [->|Hne]; simpl.
    + now rewrite String.eqb_refl.
    + destruct (String.eqb_spec k' k); [contradiction|exact IH].
Qed.

Lemma lookup_set_other (d : Dict) k k' v :
  k <> k' -> PyDict.lookup (PyDict.set d k v) k' = PyDict.lookup d k'.
Proof.
  intros Hne. induction d as [|[k0 v0] d IH]; simpl.
  - destruct (String.eqb_spec k k'); [contradiction|reflexivity].
  - destruct (String.eqb_spec k0 k) as [->|Hk]; simpl.
    + destruct (String.eqb_spec k k'); [contradiction|reflexivity].
    + destruct (String.eqb_spec k0 k'); [reflexivity|exact IH].
Qed.

Lemma lookup_remove_same (d : Dict) k : PyDict.lookup (PyDict.remove d k) k = None.
Proof.
  induction d as [|[k0 v0] d IH]; simpl; [reflexivity|].
  destruct (String.eqb_spec k0 k) as [->|Hk]; simpl; [exact IH|].
  destruct (String.eqb_spec k0 k); [contradiction|exact IH].
Qed.

Lemma lookup_remove_other (d : Dict) k k' :
  k <> k' -> PyDict.lookup (PyDict.remove d k) k' = PyDict.lookup d k'.
Proof.
  intros Hne. induction d as [|[k0 v0] d IH]; simpl; [reflexivity|].
  destruct (String.eqb_spec k0 k) as [->|Hk]; simpl.
  - destruct (String.eqb_spec k k'); [contradiction|exact IH].
  - destruct (String.eqb_spec k0 k'); [reflexivity|exact IH].
Qed.

Lemma mem_lookup (d : Dict) k :
  PyDict.mem d k = match PyDict.lookup d k with Some _ => true | None => false end.
Proof. reflexivity. Qed.

Lemma bind_ok {S A B} (c : SE S A) (k : A -> SE S B) s s' b :
  bind c k s = (s', Ok b) ->
  exists s1 a, c s = (s1, Ok a) /\ k a s1 = (s', Ok b).
Proof.
  unfold bind. destruct (c s) as [s1 [a|e]]; intros H.
  - now exists s1, a.
  - discriminate.
Qed.

Lemma bind_step {S A B} (c : SE S A) (k : A -> SE S B) s s1 a :
  c s = (s1, Ok a) -> bind c k s = k a s1.
Proof. unfold bind. now intros ->. Qed.

Lemma bind_raise {S A B} (c : SE S A) (k : A -> SE S B) s s1 e :
  c s = (s1, Raise e) -> bind c k s = (s1, Raise e).
Proof. unfold bind. now intros ->. Qed.

Lemma for_each_app {S A} (l1 l2 : list A) (body : A -> SE S unit) s :
  for_each (l1 ++ l2)%list body s =
  (for_each l1 body ;; for_each l2 body) s.
Proof.
  revert s. induction l1 as [|x l1 IH]; intros s; simpl.
  - reflexivity.
  - unfold bind in *. destruct (body x s) as [s1 [[]|e]]; [apply IH|reflexivity].
Qed.

(* ====================================================================== *)
(** ** Lemmas: the entry loops of the normalizer *)
(* ====================================================================== *)

Lemma list_set_middle (pre : list PyVal) x rest v :
  list_set (pre ++ x :: rest)%list (List.length pre) v = (pre ++ v :: rest)%list.
Proof. induction pre as [|y pre IH]; simpl; [reflexivity|now rewrite IH]. Qed.

Lemma entries_loop_spec step kind items :
  forall pre,
    entries_loop step kind items (List.length pre) (pre ++ items)%list =
    let '(l, r) := loop_spec step kind items in ((pre ++ l)%list, r).
Proof.
  induction items as [|item rest IH]; intros pre; simpl.
  - reflexivity.
  - destruct (step item) as [entry|e]; [|reflexivity].
    rewrite list_set_middle.
    destruct (reserved_check kind entry) as [[]|e]; [|reflexivity].
    specialize (IH (pre ++ [entry])%list).
    rewrite length_app, Nat.add_comm in IH. simpl in IH.
    rewrite <- app_assoc in IH. simpl in IH. rewrite IH.
    destruct (loop_spec step kind rest) as [l r].
    now rewrite <- app_assoc.
Qed.

Lemma enumerate_list step kind l :
  enumerate_entries step kind (VList l) =
  let '(l', r) := loop_spec step kind l in (VList l', r).
Proof.
  pose proof (entries_loop_spec step kind l []) as H. simpl in H.
  unfold enumerate_entries. rewrite H.
  now destruct (loop_spec step kind l).
Qed.

Lemma loop_spec_ok step kind items l :
  loop_spec step kind items = (l, Ok tt) -> Forall2 (accepted step kind) items l.
Proof.
  revert l. induction items as [|item rest IH]; intros l; simpl.
  - intros [= <-]. constructor.
  - destruct (step item) as [entry|e] eqn:Hs; [|discriminate].
    destruct (reserved_check kind entry) as [[]|e] eqn:Hc; [|discriminate].
    destruct (loop_spec step kind rest) as [l0 r0].
    intros [= <- ->]. constructor; [now split|now apply IH].
Qed.

Lemma loop_spec_complete step kind items l :
  Forall2 (accepted step kind) items l -> loop_spec step kind items = (l, Ok tt).
Proof.
  induction 1 as [|item entry rest l [Hs Hc] _ IH]; simpl; [reflexivity|].
  now rewrite Hs, Hc, IH.
Qed.

(* ====================================================================== *)
(** ** Lemmas: the stages of [_normalize_swenv] as functions on the document *)
(* ====================================================================== *)

Lemma fold_key_run singular plural msg s :
  fold_key singular plural msg s =
  if conflict (n_swenv s) singular plural
  then (MkNorm (n_swenv s) (n_printed s ++ [msg]), Raise (AssertionError ""))
  else (MkNorm (fold_doc (n_swenv s) singular plural) (n_printed s), Ok tt).
Proof.
  destruct s as [d out]. unfold fold_key, conflict, fold_doc, bind, gets. simpl.
  destruct (PyDict.mem d singular); simpl; [|reflexivity].
  destruct (PyDict.mem d plural); reflexivity.
Qed.

Lemma coerce_list_run ki s :
  coerce_list ki s = (MkNorm (coerce_doc (n_swenv s) ki) (n_printed s), Ok tt).
Proof.
  destruct s as [d out]. unfold coerce_list, coerce_doc, bind, gets. simpl.
  destruct (PyDict.lookup d ki) as [v|]; [|reflexivity].
  destruct (is_list v); reflexivity.
Qed.

Lemma normalize_key_run step kind key s :
  normalize_key step kind key s =
  match PyDict.lookup (n_swenv s) key with
  | None => (s, Ok tt)
  | Some v =>
      (MkNorm (PyDict.set (n_swenv s) key (fst (enumerate_entries step kind v)))
              (n_printed s),
       snd (enumerate_entries step kind v))
  end.
Proof.
  destruct s as [d out]. unfold normalize_key, bind, gets. simpl.
  destruct (PyDict.lookup d key) as [v|]; [|reflexivity].
  destruct (enumerate_entries step kind v) as [v' r]. simpl.
  unfold n_update, modify, lift. simpl. now destruct r.
Qed.

Lemma lookup_fold_other d singular plural k :
  k <> singular -> k <> plural ->
  PyDict.lookup (fold_doc d singular plural) k = PyDict.lookup d k.
Proof.
  intros H1 H2. unfold fold_doc. destruct (PyDict.mem d singular); [|reflexivity].
  rewrite lookup_set_other by congruence. apply lookup_remove_other. congruence.
Qed.

Lemma lookup_fold_plural d singular plural :
  singular <> plural ->
  conflict d singular plural = false ->
  PyDict.lookup (fold_doc d singular plural) plural = given d singular plural.
Proof.
  intros Hne Hc. unfold fold_doc, given, conflict, PyDict.mem, PyDict.get in *.
  destruct (PyDict.lookup d singular) as [v|] eqn:Hs.
  - now rewrite lookup_set_same.
  - reflexivity.
Qed.

Lemma lookup_coerce_same d ki :
  PyDict.lookup (coerce_doc d ki) ki = option_map coerce (PyDict.lookup d ki).
Proof.
  unfold coerce_doc, coerce. destruct (PyDict.lookup d ki) as [v|] eqn:H; simpl.
  - destruct (is_list v); [now rewrite H|apply lookup_set_same].
  - now rewrite H.
Qed.

Lemma lookup_coerce_other d ki k :
  ki <> k -> PyDict.lookup (coerce_doc d ki) k = PyDict.lookup d k.
Proof.
  intros Hne. unfold coerce_doc. destruct (PyDict.lookup d ki) as [v|]; [|reflexivity].
  destruct (is_list v); [reflexivity|now apply lookup_set_other].
Qed.

Lemma conflict_fold_other d s1 p1 s2 p2 :
  s2 <> s1 -> s2 <> p1 -> p2 <> s1 -> p2 <> p1 ->
  conflict (fold_doc d s1 p1) s2 p2 = conflict d s2 p2.
Proof.
  intros. unfold conflict, PyDict.mem.
  now rewrite !lookup_fold_other by assumption.
Qed.

Ltac str_neq := let H := fresh in intros H; discriminate H.

Lemma prelude_files d :
  no_conflict d = true ->
  PyDict.lookup (prelude d) "files" = option_map coerce (given d "file" "files").
Proof.
  intros Hn. unfold no_conflict in Hn.
  apply andb_prop in Hn as [Hn H3]. apply andb_prop in Hn as [H1 H2].
  apply negb_true_iff in H1.
  unfold prelude.
  rewrite !lookup_coerce_other by str_neq.
  rewrite lookup_coerce_same.
  rewrite !lookup_fold_other by str_neq.
  rewrite (lookup_fold_plural d "file" "files"); [reflexivity|str_neq|assumption].
Qed.

Lemma prelude_modules d :
  no_conflict d = true ->
  PyDict.lookup (prelude d) "modules" = given d "module" "modules".
Proof.
  intros Hn. unfold no_conflict in Hn.
  apply andb_prop in Hn as [Hn H3]. apply andb_prop in Hn as [H1 H2].
  apply negb_true_iff in H2.
  unfold prelude.
  rewrite !lookup_coerce_other by str_neq.
  rewrite !lookup_fold_other by str_neq.
  rewrite (lookup_fold_plural _ "module" "modules"); [|str_neq|].
  - unfold given. now rewrite !lookup_fold_other by str_neq.
  - now rewrite conflict_fold_other by str_neq.
Qed.

Lemma prelude_assets d :
  no_conflict d = true ->
  PyDict.lookup (prelude d) "assets" = option_map coerce (given d "asset" "assets").
Proof.
  intros Hn. unfold no_conflict in Hn.
  apply andb_prop in Hn as [Hn H3]. apply andb_prop in Hn as [H1 H2].
  apply negb_true_iff in H3.
  unfold prelude.
  rewrite !lookup_coerce_other by str_neq.
  rewrite lookup_coerce_same.
  rewrite !lookup_coerce_other by str_neq.
  rewrite (lookup_fold_plural _ "asset" "assets"); [|str_neq|].
  - unfold given. now rewrite !lookup_fold_other by str_neq.
  - now rewrite !conflict_fold_other by str_neq.
Qed.

Lemma normalize_run cwd d swenv_path :
  no_conflict d = true ->
  _normalize_swenv cwd d swenv_path =
  loops (absolute cwd swenv_path) (MkNorm (prelude d) []).
Proof.
  intros Hn. unfold no_conflict in Hn.
  apply andb_prop in Hn as [Hn H3]. apply andb_prop in Hn as [H1 H2].
  apply negb_true_iff in H1, H2, H3.
  unfold _normalize_swenv, normalize_body.
  erewrite bind_step; [|rewrite fold_key_run; simpl; rewrite H1; reflexivity].
  erewrite bind_step;
    [|rewrite fold_key_run; simpl;
      rewrite conflict_fold_other by str_neq; rewrite H2; reflexivity].
  erewrite bind_step;
    [|rewrite fold_key_run; simpl;
      rewrite !conflict_fold_other by str_neq; rewrite H3; reflexivity].
  simpl for_each.
  erewrite bind_step.
  2:{ erewrite bind_step by apply coerce_list_run.
      erewrite bind_step by apply coerce_list_run.
      erewrite bind_step by apply coerce_list_run.
      reflexivity. }
  reflexivity.
Qed.

Lemma normalize_conflict cwd d swenv_path :
  no_conflict d = false ->
  exists n, _normalize_swenv cwd d swenv_path = (n, Raise (AssertionError "")).
Proof.
  intros Hn. unfold no_conflict in Hn.
  unfold _normalize_swenv, normalize_body.
  destruct (conflict d "file" "files") eqn:H1.
  { eexists. erewrite bind_raise; [reflexivity|].
    rewrite fold_key_run. simpl. now rewrite H1. }
  erewrite bind_step; [|rewrite fold_key_run; simpl; rewrite H1; reflexivity].
  destruct (conflict d "module" "modules") eqn:H2.
  { eexists. erewrite bind_raise; [reflexivity|].
    rewrite fold_key_run. simpl.
    rewrite conflict_fold_other by str_neq. now rewrite H2. }
  erewrite bind_step;
    [|rewrite fold_key_run; simpl;
      rewrite conflict_fold_other by str_neq; rewrite H2; reflexivity].
  destruct (conflict d "asset" "assets") eqn:H3; [|discriminate Hn].
  eexists. erewrite bind_raise; [reflexivity|].
  rewrite fold_key_run. simpl.
  rewrite !conflict_fold_other by str_neq. now rewrite H3.
Qed.

Lemma normalize_key_stage step kind key d out :
  normalize_key step kind key (MkNorm d out) =
  (MkNorm (stage_doc step kind key d) out,
   stage_outcome step kind (PyDict.lookup d key)).
Proof.
  rewrite normalize_key_run. unfold stage_doc, stage_outcome. simpl.
  now destruct (PyDict.lookup d key).
Qed.

Lemma lookup_stage_other step kind key d k :
  key <> k -> PyDict.lookup (stage_doc step kind key d) k = PyDict.lookup d k.
Proof.
  intros Hne. unfold stage_doc. destruct (PyDict.lookup d key); [|reflexivity].
  now apply lookup_set_other.
Qed.

Lemma lookup_stage_same step kind key d :
  PyDict.lookup (stage_doc step kind key d) key =
  option_map (fun v => fst (enumerate_entries step kind v)) (PyDict.lookup d key).
Proof.
  unfold stage_doc. destruct (PyDict.lookup d key) eqn:H; simpl.
  - apply lookup_set_same.
  - exact H.
Qed.

Lemma prelude_stage d k :
  no_conflict d = true -> PyDict.lookup (prelude d) (kind_plural k) = stage_value d k.
Proof.
  intros H. destruct k; simpl.
  - now apply prelude_files.
  - now apply prelude_modules.
  - now apply prelude_assets.
Qed.

Ltac rw_prelude d k Hn :=
  let X := fresh in
  pose proof (prelude_stage d k Hn) as X; simpl kind_plural in X; rewrite X; clear X.
Ltac rw_prelude_in d k Hn H :=
  let X := fresh in
  pose proof (prelude_stage d k Hn) as X; simpl kind_plural in X; rewrite X in H; clear X.

(** The outcome of a normalization without key conflict is the outcome of
    the first loop that raises. *)
Lemma normalize_outcome cwd d swenv_path :
  no_conflict d = true ->
  let base := absolute cwd swenv_path in
  snd (_normalize_swenv cwd d swenv_path) =
  match kind_outcome base d KFile with
  | Raise e => Raise e
  | Ok _ =>
      match kind_outcome base d KModule with
      | Raise e => Raise e
      | Ok _ => kind_outcome base d KAsset
      end
  end.
Proof.
  intros Hn base. rewrite normalize_run by assumption. fold base.
  unfold loops, kind_outcome, bind.
  rewrite normalize_key_stage.
  rw_prelude d KFile Hn. simpl kind_step. simpl kind_name.
  destruct (stage_outcome (file_entry base) "file" (stage_value d KFile)) as [[]|e];
    [|reflexivity].
  rewrite normalize_key_stage.
  rewrite lookup_stage_other by str_neq.
  rw_prelude d KModule Hn.
  destruct (stage_outcome (file_entry base) "module" (stage_value d KModule)) as [[]|e];
    [|reflexivity].
  rewrite normalize_key_stage. simpl.
  rewrite !lookup_stage_other by str_neq.
  rw_prelude d KAsset Hn; reflexivity.
Qed.

(** After a successful normalization each loop has succeeded, and the
    document holds, under the plural key, the list that loop left. *)
Lemma normalize_success cwd d swenv_path n :
  _normalize_swenv cwd d swenv_path = (n, Ok tt) ->
  let base := absolute cwd swenv_path in
  no_conflict d = true /\
  n_printed n = [] /\
  forall k,
    kind_outcome base d k = Ok tt /\
    PyDict.lookup (n_swenv n) (kind_plural k) =
    option_map (fun v => fst (enumerate_entries (kind_step base k) (kind_name k) v))
               (stage_value d k).
Proof.
  intros H base.
  destruct (no_conflict d) eqn:Hn.
  2:{ destruct (normalize_conflict cwd d swenv_path Hn) as [n' Hc]. congruence. }
  split; [reflexivity|].
  pose proof (normalize_outcome cwd d swenv_path Hn) as Ho.
  rewrite H in Ho. simpl in Ho. fold base in Ho.
  rewrite normalize_run in H by assumption. fold base in H.
  unfold loops, bind in H.
  rewrite normalize_key_stage in H.
  rw_prelude_in d KFile Hn H.
  unfold kind_outcome in Ho. simpl kind_step in Ho. simpl kind_name in Ho.
  destruct (stage_outcome (file_entry base) "file" (stage_value d KFile)) as [[]|e] eqn:E1;
    [|discriminate].
  rewrite normalize_key_stage in H.
  rewrite lookup_stage_other in H by str_neq.
  rw_prelude_in d KModule Hn H.
  destruct (stage_outcome (file_entry base) "module" (stage_value d KModule)) as [[]|e] eqn:E2;
    [|discriminate].
  rewrite normalize_key_stage in H.
  injection H as Hd Hr. subst n. simpl.
  split; [reflexivity|].
  intros k. unfold kind_outcome. destruct k; simpl kind_step; simpl kind_name; simpl kind_plural.
  - split; [exact E1|].
    rewrite !lookup_stage_other by str_neq. rewrite lookup_stage_same.
    rw_prelude d KFile Hn; reflexivity.
  - split; [exact E2|].
    rewrite !lookup_stage_other by str_neq. rewrite lookup_stage_same.
    rewrite lookup_stage_other by str_neq.
    rw_prelude d KModule Hn; reflexivity.
  - split; [now rewrite Ho|].
    rewrite lookup_stage_same.
    rewrite !lookup_stage_other by str_neq.
    rw_prelude d KAsset Hn; reflexivity.
Qed.

(* ====================================================================== *)
(** ** Lemmas: accepted entries *)
(* ====================================================================== *)

Lemma coerce_as_list v : coerce v = VList (as_list v).
Proof. now destruct v. Qed.

Lemma loop_spec_app step kind l1 l2 :
  snd (loop_spec step kind (l1 ++ l2)%list) =
  match snd (loop_spec step kind l1) with
  | Ok _ => snd (loop_spec step kind l2)
  | Raise e => Raise e
  end.
Proof.
  induction l1 as [|x l1 IH]; simpl; [reflexivity|].
  destruct (step x) as [entry|e]; [|reflexivity].
  destruct (reserved_check kind entry) as [[]|e]; [|reflexivity].
  destruct (loop_spec step kind (l1 ++ l2)%list) as [la ra].
  destruct (loop_spec step kind l1) as [lb rb]. simpl in *. exact IH.
Qed.

Lemma reserved_nonempty p : PyStr.startswith p RESERVED = true -> p <> "".
Proof. intros H ->. discriminate H. Qed.

(** Both entry steps accept an entry with a reserved path and keep its
    path, so the test that follows the assignment sees it. *)
Lemma step_reserved base k item p :
  entry_path item = Some p ->
  PyStr.startswith p RESERVED = true ->
  exists d', kind_step base k item = Ok (VDict d') /\
             PyDict.get d' "path" VNone = VStr p.
Proof.
  intros Hp Hr. pose proof (reserved_nonempty p Hr) as Hne.
  destruct item as [| | |s|l|d]; try discriminate Hp.
  - injection Hp as ->.
    destruct k; simpl; try (eexists; split; [reflexivity|reflexivity]).
    destruct (String.eqb (suffix (parse p)) ".py");
      eexists; split; reflexivity.
  - simpl in Hp.
    destruct (PyDict.lookup d "path") as [[| | |s| |]|] eqn:Hl; try discriminate Hp.
    injection Hp as ->.
    assert (Hg : forall dflt, PyDict.get d "path" dflt = VStr p)
      by (intros; unfold PyDict.get; now rewrite Hl).
    destruct k; simpl.
    1,2: rewrite !Hg; simpl;
         destruct (String.eqb_spec p ""); [contradiction|]; simpl;
         eexists; split; [reflexivity|];
         unfold PyDict.get; rewrite lookup_set_other by str_neq; now rewrite Hl.
    exists d. split; [reflexivity|apply Hg].
Qed.

Lemma reserved_check_raises kind d p :
  PyDict.get d "path" VNone = VStr p ->
  PyStr.startswith p RESERVED = true ->
  reserved_check kind (VDict d) = Raise (ValueError (reserved_msg kind p)).
Proof. intros Hg Hr. unfold reserved_check. now rewrite Hg, Hr. Qed.

(** A list with a reserved entry: the loop raises, and raises the value
    error naming that entry when the entries before it are accepted. *)
Lemma loop_spec_reserved base k pre item post p :
  entry_path item = Some p ->
  PyStr.startswith p RESERVED = true ->
  snd (loop_spec (kind_step base k) (kind_name k) (pre ++ item :: post)%list) =
  match snd (loop_spec (kind_step base k) (kind_name k) pre) with
  | Ok _ => Raise (ValueError (reserved_msg (kind_name k) p))
  | Raise e => Raise e
  end.
Proof.
  intros Hp Hr. rewrite loop_spec_app.
  destruct (snd (loop_spec (kind_step base k) (kind_name k) pre)) as [[]|e];
    [|reflexivity].
  destruct (step_reserved base k item p Hp Hr) as [d' [Hs Hg]].
  simpl. rewrite Hs. now rewrite (reserved_check_raises _ d' p Hg Hr).
Qed.

Lemma no_conflict_kind d k :
  no_conflict d = true -> conflict d (kind_name k) (kind_plural k) = false.
Proof.
  unfold no_conflict. intros H.
  apply andb_prop in H as [H H3]. apply andb_prop in H as [H1 H2].
  destruct k; simpl; now apply negb_true_iff.
Qed.

Lemma listed_stage d k l :
  no_conflict d = true -> listed d k l -> stage_value d k = Some (VList l).
Proof.
  intros Hn (key & v & Hkey & Hl & He).
  pose proof (no_conflict_kind d k Hn) as Hc.
  unfold conflict, PyDict.mem in Hc.
  assert (Hg : given d (kind_name k) (kind_plural k) = Some v).
  { unfold given. destruct Hkey as [-> | ->].
    - now rewrite Hl.
    - destruct (PyDict.lookup d (kind_name k)) eqn:E.
      + rewrite Hl in Hc. discriminate Hc.
      + exact Hl. }
  destruct k; simpl in *; rewrite Hg; simpl.
  - injection He as <-. now rewrite coerce_as_list.
  - destruct v; try discriminate. now injection He as <-.
  - injection He as <-. now rewrite coerce_as_list.
Qed.

(* ====================================================================== *)
(** ** Normalizer: the claims *)
(* ====================================================================== *)

(** A mapping-form file entry with a usable path: its [root] becomes
    [base / path]; the [root] the entry came with is not read. *)
Lemma file_entry_mapping base d p :
  PyDict.lookup d "path" = Some (VStr p) -> p <> "" ->
  file_entry base (VDict d) =
  Ok (VDict (PyDict.set d "root" (VStr (to_str (join base (parse p)))))).
Proof.
  intros Hl Hne. unfold file_entry, PyDict.get. rewrite Hl. simpl.
  now destruct (String.eqb_spec p "").
Qed.

(** A mapping-form file entry without a [path] key fails the assertion. *)
Lemma file_entry_no_path base d :
  PyDict.lookup d "path" = None ->
  file_entry base (VDict d) = Raise (AssertionError "").
Proof. intros Hl. unfold file_entry, PyDict.get. now rewrite Hl. Qed.

(** C1 (code defect).  The entry of the module's own documentation,
    [{path: myfile.py, root: /some/project/dir}], normalized against the
    base directory [/home/user/proj]: the claim (and the documentation)
    asks for [root = base_dir / "/some/project/dir" = "/some/project/dir"];
    the code stores [base_dir / path = "/home/user/proj/myfile.py"],
    because line 249 reads [item.get("path", "")] where the entry's [root]
    is meant.  Line 264 does the same to a module entry: [root: sub]
    becomes [/home/user/proj/mod], not [/home/user/proj/sub]. *)
Theorem C1_root_taken_from_path_not_root :
  let doc := [("files", VList [VDict [("path", VStr "myfile.py");
                                      ("root", VStr "/some/project/dir")]]);
              ("modules", VList [VDict [("path", VStr "mod"); ("root", VStr "sub")]])] in
  _normalize_swenv "/work" doc (parse "/home/user/proj") =
    (MkNorm [("files", VList [VDict [("path", VStr "myfile.py");
                                     ("root", VStr "/home/user/proj/myfile.py")]]);
             ("modules", VList [VDict [("path", VStr "mod");
                                       ("root", VStr "/home/user/proj/mod")]])] [],
     Ok tt)
  /\ to_str (join (absolute "/work" (parse "/home/user/proj"))
                  (parse "/some/project/dir")) = "/some/project/dir"
  /\ to_str (join (absolute "/work" (parse "/home/user/proj")) (parse "sub"))
     = "/home/user/proj/sub".
Proof. repeat split. Qed.

(** When only the singular key is present, key folding moves its value,
    unchanged, under the plural key. *)
Lemma fold_key_renames singular plural msg d out v :
  PyDict.lookup d singular = Some v ->
  PyDict.lookup d plural = None ->
  singular <> plural ->
  exists d',
    fold_key singular plural msg (MkNorm d out) = (MkNorm d' out, Ok tt) /\
    PyDict.lookup d' plural = Some v /\ PyDict.lookup d' singular = None.
Proof.
  intros Hs Hp Hne. rewrite fold_key_run. simpl.
  unfold conflict, fold_doc, PyDict.mem, PyDict.get. rewrite Hs, Hp. simpl.
  eexists. split; [reflexivity|]. split.
  - apply lookup_set_same.
  - rewrite lookup_set_other by congruence. apply lookup_remove_same.
Qed.


(** Without a conflict, normalization depends on the document only through
    the values given for each singular/plural pair: a list under [file]
    normalizes as the same list under [files], entry for entry. *)
Lemma normalize_given cwd d d' swenv_path :
  no_conflict d = true -> no_conflict d' = true ->
  (forall k, stage_value d k = stage_value d' k) ->
  snd (_normalize_swenv cwd d swenv_path) = snd (_normalize_swenv cwd d' swenv_path) /\
  (forall n n',
     _normalize_swenv cwd d swenv_path = (n, Ok tt) ->
     _normalize_swenv cwd d' swenv_path = (n', Ok tt) ->
     forall k, PyDict.lookup (n_swenv n) (kind_plural k) =
               PyDict.lookup (n_swenv n') (kind_plural k)).
Proof.
  intros Hn Hn' Hv. split.
  - rewrite !normalize_outcome by assumption. unfold kind_outcome.
    now rewrite !Hv.
  - intros n n' H H' k.
    destruct (normalize_success _ _ _ _ H) as (_ & _ & Hk).
    destruct (normalize_success _ _ _ _ H') as (_ & _ & Hk').
    destruct (Hk k) as [_ ->]. destruct (Hk' k) as [_ ->]. now rewrite Hv.
Qed.

Lemma singular_as_plural cwd (l : list PyVal) swenv_path :
  _normalize_swenv cwd [("file", VList l)] swenv_path =
  _normalize_swenv cwd [("files", VList l)] swenv_path.
Proof. rewrite !normalize_run by reflexivity. reflexivity. Qed.

(** C4 (code defect).  A document with both [module] and [modules] fails
    with a bare [AssertionError]; the only text naming keys is the printed
    line, and for this pair it names 'file' and 'files' (the message of the
    first pair, lines 218-220), not the conflicting keys. *)
Theorem C4_module_conflict_names_file_keys :
  let doc := [("module", VList [VStr "m"]); ("modules", VList [VStr "n"])] in
  _normalize_swenv "/work" doc (parse "/base") =
    (MkNorm doc
       ["Error: you can use either key 'file' or 'files' but not both together."],
     Raise (AssertionError "")).
Proof. reflexivity. Qed.





(** C6 (as stated, refuted).  The second entry has a reserved path, yet the
    normalization raises an [AssertionError], not a [ValueError]: the first
    entry, a mapping without [path], stops the loop before. *)
Lemma C6_earlier_error_preempts_value_error :
  let doc := [("files", VList [VDict [("name", VStr "n")];
                               VStr "cpd_software_env/x.py"])] in
  reserved_entry (VStr "cpd_software_env/x.py") = true /\
  snd (_normalize_swenv "/work" doc (parse "/base")) = Raise (AssertionError "") /\
  snd (_normalize_swenv "/work" doc (parse "/base")) <>
    Raise (ValueError (reserved_msg "file" "cpd_software_env/x.py")).
Proof. repeat split. discriminate. Qed.

Lemma kind_outcome_listed base d k l :
  stage_value d k = Some (VList l) ->
  kind_outcome base d k = snd (loop_spec (kind_step base k) (kind_name k) l).
Proof.
  intros Hs. unfold kind_outcome, stage_outcome. rewrite Hs, enumerate_list.
  now destruct (loop_spec (kind_step base k) (kind_name k) l).
Qed.

(** C6 (amended).  A document listing, under the singular or plural key of
    files, modules or assets, an entry whose path begins with the reserved
    prefix -- given as a plain string or as a mapping -- is never
    normalized successfully; and the normalization raises the value error
    naming that entry whenever nothing raises before the loop reaches it:
    no singular/plural conflict, the earlier loops succeed, and the entries
    before it in its list are accepted. *)
Theorem C6_reserved_prefix_rejected cwd swenv swenv_path k pre item post p :
  listed swenv k (pre ++ item :: post)%list ->
  entry_path item = Some p ->
  PyStr.startswith p RESERVED = true ->
  let base := absolute cwd swenv_path in
  snd (_normalize_swenv cwd swenv swenv_path) <> Ok tt /\
  (no_conflict swenv = true ->
   (forall k', In k' (earlier k) -> kind_outcome base swenv k' = Ok tt) ->
   snd (loop_spec (kind_step base k) (kind_name k) pre) = Ok tt ->
   snd (_normalize_swenv cwd swenv swenv_path) =
     Raise (ValueError (reserved_msg (kind_name k) p))).
Proof.
  intros Hl Hp Hr base.
  assert (Hk : no_conflict swenv = true ->
               kind_outcome base swenv k =
               match snd (loop_spec (kind_step base k) (kind_name k) pre) with
               | Ok _ => Raise (ValueError (reserved_msg (kind_name k) p))
               | Raise e => Raise e
               end).
  { intros Hn. rewrite (kind_outcome_listed base swenv k _ (listed_stage _ _ _ Hn Hl)).
    now apply loop_spec_reserved. }
  split.
  - destruct (no_conflict swenv) eqn:Hn.
    + rewrite normalize_outcome by assumption. fold base.
      specialize (Hk eq_refl).
      assert (Hne : kind_outcome base swenv k <> Ok tt).
      { rewrite Hk.
        destruct (snd (loop_spec (kind_step base k) (kind_name k) pre)) as [[]|e];
          discriminate. }
      destruct k;
        destruct (kind_outcome base swenv KFile) as [[]|e1]; try discriminate;
        try (exfalso; now apply Hne);
        destruct (kind_outcome base swenv KModule) as [[]|e2]; try discriminate;
        try (exfalso; now apply Hne);
        exact Hne.
    + destruct (normalize_conflict cwd swenv swenv_path Hn) as [n Hc].
      rewrite Hc. discriminate.
  - intros Hn He Hpre. rewrite normalize_outcome by assumption. fold base.
    specialize (Hk Hn). rewrite Hpre in Hk.
    destruct k; simpl in He.
    + now rewrite Hk.
    + rewrite (He KFile) by (now left). now rewrite Hk.
    + rewrite (He KFile) by (now left).
      rewrite (He KModule) by (right; now left). exact Hk.
Qed.

(** C6, on a module list whose second entry is a mapping with a reserved
    path. *)
Lemma C6_witness :
  let doc := [("files", VList [VStr "lib.py"]);
              ("module", VList [VStr "ok";
                                VDict [("path", VStr "cpd_software_env/m.py")];
                                VStr "later"])] in
  listed doc KModule
    ([VStr "ok"] ++ VDict [("path", VStr "cpd_software_env/m.py")] :: [VStr "later"])%list /\
  snd (_normalize_swenv "/work" doc (parse "/base")) =
    Raise (ValueError (reserved_msg "module" "cpd_software_env/m.py")).
Proof.
  intros doc.
  assert (Hl : listed doc KModule
      ([VStr "ok"] ++ VDict [("path", VStr "cpd_software_env/m.py")] :: [VStr "later"])%list).
  { exists "module", (VList [VStr "ok"; VDict [("path", VStr "cpd_software_env/m.py")];
                             VStr "later"]).
    repeat split. now left. }
  split; [exact Hl|].
  refine (proj2 (C6_reserved_prefix_rejected "/work" doc (parse "/base") KModule
                   [VStr "ok"] _ [VStr "later"] "cpd_software_env/m.py"
                   Hl eq_refl eq_refl) eq_refl _ eq_refl).
  intros k' [<-|[]]. reflexivity.
Defined.


Lemma reserved_check_ok kind e :
  reserved_check kind e = Ok tt ->
  exists d p, e = VDict d /\ PyDict.lookup d "path" = Some (VStr p).
Proof.
  destruct e as [| | | | |d]; try discriminate. simpl. unfold PyDict.get.
  destruct (PyDict.lookup d "path") as [[| | |p| |]|] eqn:Hl; try discriminate.
  intros _. exists d, p. split; [reflexivity|exact Hl].
Qed.


Lemma enumerate_not_list step kind v l' :
  fst (enumerate_entries step kind v) = VList l' -> exists l, v = VList l.
Proof.
  destruct v as [| | |s|l|d]; simpl; try discriminate.
  - destruct (PyStr.chars s) as [|c cs]; [discriminate|].
    destruct (step (VStr c)); discriminate.
  - intros _. now exists l.
  - destruct d as [|[k0 v0] d]; [discriminate|].
    destruct (step (VStr k0)) as [e|]; [|discriminate].
    destruct (reserved_check kind e); discriminate.
Qed.



(* ====================================================================== *)
(** ** Installer: basic runs *)
(* ====================================================================== *)

Lemma my_print_msg_run msg st : _my_print_msg msg st = (log_msg msg st, Ok tt).
Proof.
  unfold _my_print_msg, log_msg, bind, modify, gets, print, ret. simpl.
  now destruct (env_true (environ st) "CPD_SOFTWARE_ENV_VERBOSE").
Qed.

Lemma log_msg_sys_path msg st : sys_path (log_msg msg st) = sys_path st.
Proof. unfold log_msg. now destruct (env_true _ _). Qed.

Lemma log_msg_PkgMsgs msg st : PkgMsgs (log_msg msg st) = (PkgMsgs st ++ [msg])%list.
Proof. unfold log_msg. now destruct (env_true _ _). Qed.

Lemma log_msg_environ msg st : environ (log_msg msg st) = environ st.
Proof. unfold log_msg. now destruct (env_true _ _). Qed.

Lemma log_msg_pending msg st :
  AssetsDownloadPending (log_msg msg st) = AssetsDownloadPending st.
Proof. unfold log_msg. now destruct (env_true _ _). Qed.

Lemma log_msg_stdout msg st :
  exists echo, stdout (log_msg msg st) = (stdout st ++ echo)%list /\
               ~ In "No assets to download" echo /\
               forall l, In l echo -> l = "..swenv: " ++ msg.
Proof.
  unfold log_msg. destruct (env_true _ _); simpl.
  - exists ["..swenv: " ++ msg]. split; [reflexivity|]. split.
    + intros [H|[]]. discriminate H.
    + intros l [<-|[]]. reflexivity.
  - exists []. rewrite app_nil_r. split; [reflexivity|]. split.
    + intros [].
    + intros l [].
Qed.

(** A [Path] object is never found among the strings of [sys.path]. *)
Lemma path_not_in_strings p (sp : list string) : py_in (OPath p) (map OStr sp) = false.
Proof. induction sp as [|s sp IH]; simpl; [reflexivity|exact IH]. Qed.

(** [_install_swenv_dir] inserts its directory whatever [sys.path] holds. *)
Lemma install_swenv_dir_run p st :
  _install_swenv_dir p st = (set_sys_path (to_str p :: sys_path st) st, Ok tt).
Proof.
  unfold _install_swenv_dir, bind, gets, modify. simpl.
  now rewrite path_not_in_strings.
Qed.

(** C2 (code defect).  Installing the same directory entry twice: the
    claim asks for one occurrence of [/base/lib]; the code leaves two,
    because line 404 looks the [Path] object up in a list of strings, a test
    that never succeeds ([_install_swenv_file] compares the string). *)
Theorem C2_directory_inserted_twice :
  let doc := [("files", VList [VDict [("name", VStr "lib"); ("path", VStr "lib");
                                      ("root", VStr "/base")]])] in
  let W := demo_platform 0 "" ["/base/lib"] [] VNone VNone in
  let st1 := fst (_install_swenv W doc (parse "/base") (fresh_state ["/usr/lib/python"] [])) in
  let st2 := fst (_install_swenv W doc (parse "/base") st1) in
  sys_path st1 = ["/base/lib"; "/usr/lib/python"] /\
  sys_path st2 = ["/base/lib"; "/base/lib"; "/usr/lib/python"] /\
  snd (_install_swenv W doc (parse "/base") st1) = Ok tt.
Proof. repeat split. Qed.

(** C8.  [_run_pip] records the command, runs it, and raises exactly when
    the return code is not zero; the exception carries the captured
    combined output as its second argument. *)
Theorem C8_run_pip_raises_on_nonzero W pip_cmd st rc out :
  plat_subprocess_run W pip_cmd (log_msg ("run " ++ cmd_repr W pip_cmd) st) = (rc, out) ->
  (rc <> 0 ->
   snd (_run_pip W pip_cmd st) =
     Raise (Exception ["pip install failed: " ++ cmd_repr W pip_cmd; out])) /\
  (rc = 0 -> snd (_run_pip W pip_cmd st) = Ok tt).
Proof.
  intros Hrun. unfold _run_pip.
  erewrite bind_step by apply my_print_msg_run.
  unfold bind, gets. rewrite Hrun.
  split; intros Hrc.
  - destruct (Z.eqb_spec rc 0); [contradiction|reflexivity].
  - subst rc. reflexivity.
Qed.

(** C8, with an installer that exits with status 1 and one that exits
    with status 0. *)
Lemma C8_witness :
  snd (_run_pip (demo_platform 1 "ERROR: No matching distribution" [] [] VNone VNone)
         ["pip"; "install"; "-r"; "tmp_requirements.txt"] (fresh_state [] []))
  = Raise (Exception ["pip install failed: <repr>"; "ERROR: No matching distribution"])
  /\
  snd (_run_pip (demo_platform 0 "ok" [] [] VNone VNone)
         ["pip"; "install"; "-r"; "tmp_requirements.txt"] (fresh_state [] []))
  = Ok tt.
Proof.
  split.
  - refine (proj1 (C8_run_pip_raises_on_nonzero
                     (demo_platform 1 "ERROR: No matching distribution" [] [] VNone VNone)
                     _ (fresh_state [] []) 1 _ eq_refl) _). discriminate.
  - exact (proj2 (C8_run_pip_raises_on_nonzero (demo_platform 0 "ok" [] [] VNone VNone)
                     _ (fresh_state [] []) 0 _ eq_refl) eq_refl).
Defined.

Lemma str_app_assoc (a b c : string) : (a ++ b) ++ c = a ++ (b ++ c).
Proof. induction a as [|x a IH]; simpl; [reflexivity|now rewrite IH]. Qed.

Lemma str_app_nil_r (a : string) : a ++ "" = a.
Proof. induction a as [|x a IH]; simpl; [reflexivity|now rewrite IH]. Qed.

Lemma reqfile_lines_run pkg reqs st :
  for_each (map VStr reqs) (reqfile_line pkg) st =
  (set_tmp_requirements (tmp_requirements st ++ req_lines reqs) st, Ok tt).
Proof.
  revert st. induction reqs as [|r reqs IH]; intros st; simpl.
  - rewrite str_app_nil_r. now destruct st.
  - unfold bind at 1. unfold reqfile_line at 1. unfold bind, ret, modify. simpl.
    rewrite IH. simpl. now rewrite !str_app_assoc.
Qed.

(** The pip step on a list of requirement strings: one line per
    requirement is written, then the installer runs on that file; nothing
    is caught, so whatever [_run_pip] raises leaves [_install_swenv]. *)
Lemma install_pip_strings W reqs st :
  _install_pip_packages_list W (VList (map VStr reqs)) st =
  _run_pip W PIP_INSTALL (pip_ready W reqs st).
Proof.
  unfold _install_pip_packages_list, pip_ready.
  rewrite (bind_step _ _ st (pip_conf_state W st) tt).
  2:{ unfold pip_conf_state.
      destruct (plat_is_file W (os_path_join (plat_pkg_dir W) "pip.conf")).
      - erewrite bind_step by apply my_print_msg_run. reflexivity.
      - reflexivity. }
  erewrite bind_step.
  2:{ unfold _map_pip_packages_list_to_reqfile.
      erewrite bind_step by reflexivity.
      erewrite bind_step by reflexivity.
      erewrite bind_step by apply reqfile_lines_run.
      reflexivity. }
  erewrite bind_step by reflexivity.
  erewrite bind_step by apply my_print_msg_run.
  reflexivity.
Qed.

Lemma install_swenv_only_pip W reqs swenv_path st :
  _install_swenv W [("pip", VList (map VStr reqs))] swenv_path st =
  _run_pip W PIP_INSTALL (pip_ready W reqs st).
Proof.
  unfold _install_swenv. simpl.
  change (install_key W [("pip", VList (map VStr reqs))] swenv_path "pip")
    with (_install_pip_packages_list W (VList (map VStr reqs))).
  unfold bind. rewrite install_pip_strings.
  now destruct (_run_pip W PIP_INSTALL (pip_ready W reqs st)) as [s [[]|e]].
Qed.

(* ====================================================================== *)
(** ** Installer: a missing file entry *)
(* ====================================================================== *)

Lemma log_msgs_sys_path msgs st : sys_path (log_msgs msgs st) = sys_path st.
Proof.
  revert st. induction msgs as [|m msgs IH]; intros st; simpl; [reflexivity|].
  unfold log_msgs in IH. now rewrite IH, log_msg_sys_path.
Qed.

Lemma log_msgs_PkgMsgs msgs st :
  PkgMsgs (log_msgs msgs st) = (PkgMsgs st ++ msgs)%list.
Proof.
  revert st. induction msgs as [|m msgs IH]; intros st; simpl.
  - now rewrite app_nil_r.
  - unfold log_msgs in IH. rewrite IH, log_msg_PkgMsgs. now rewrite <- app_assoc.
Qed.

(** C9 (as stated, refuted).  One existing directory and one missing path:
    the installation succeeds and the directory is on the search path, but
    the message sink only holds the progress messages written for every
    entry; the "not found" diagnostic is printed on standard output
    (line 338 calls [print], not [_my_print_msg]). *)
Lemma C9_not_found_is_printed_not_logged :
  let doc := [("files", VList [VDict [("name", VStr "lib"); ("path", VStr "lib");
                                      ("root", VStr "/base")];
                               VDict [("name", VStr "nofile"); ("path", VStr "nofile");
                                      ("root", VStr "/base")]])] in
  let W := demo_platform 0 "" ["/base/lib"] [] VNone VNone in
  let r := _install_swenv W doc (parse "/base") (fresh_state [] []) in
  snd r = Ok tt /\
  sys_path (fst r) = ["/base/lib"] /\
  PkgMsgs (fst r) = ["set sys.path for 'lib'"; "dict_path /base/lib";
                     "set sys.path for 'nofile'"; "dict_path /base/nofile"] /\
  stdout (fst r) = [not_found_line "/base/nofile"] /\
  ~ In (not_found_line "/base/nofile") (PkgMsgs (fst r)).
Proof.
  repeat split. simpl. intros [H|[H|[H|[H|[]]]]]; discriminate H.
Qed.

(** C9 (amended).  A file entry whose resolved path is neither a directory
    nor a file is skipped without raising: the search path is unchanged, the
    loop goes on with the remaining entries, the message sink receives only
    the progress messages of the entry, and the diagnostic naming the
    missing path is printed on standard output. *)
Theorem C9_missing_entry_skipped W swenv swenv_path p path rest st :
  resolved swenv p = Ok path ->
  plat_is_dir W (to_str (join swenv_path path)) = false ->
  plat_is_file W (to_str (join swenv_path path)) = false ->
  let st1 := log_msgs (progress_msgs W p path) st in
  let st2 := set_stdout (stdout st1 ++ [not_found_line (to_str (join swenv_path path))]) st1 in
  install_file_entry W swenv swenv_path p st = (st2, Ok tt) /\
  sys_path st2 = sys_path st /\
  PkgMsgs st2 = (PkgMsgs st ++ progress_msgs W p path)%list /\
  for_each (p :: rest) (install_file_entry W swenv swenv_path) st =
  for_each rest (install_file_entry W swenv swenv_path) st2.
Proof.
  intros Hres Hd Hf st1 st2.
  assert (Hrun : install_file_entry W swenv swenv_path p st = (st2, Ok tt)).
  { unfold install_file_entry.
    erewrite bind_step by apply my_print_msg_run.
    destruct p as [| | |s|l|d]; simpl in Hres; try discriminate Hres.
    - injection Hres as <-.
      erewrite bind_step by reflexivity.
      rewrite Hd, Hf. reflexivity.
    - erewrite bind_step.
      2:{ erewrite bind_step by (unfold lift; rewrite Hres; reflexivity).
          erewrite bind_step by apply my_print_msg_run. reflexivity. }
      rewrite Hd, Hf. reflexivity. }
  split; [exact Hrun|]. split; [|split].
  - subst st2 st1. simpl. apply log_msgs_sys_path.
  - subst st2 st1. simpl. apply log_msgs_PkgMsgs.
  - simpl. now erewrite bind_step by exact Hrun.
Qed.

(** C9, on a missing entry followed by an existing directory. *)
Lemma C9_witness :
  let W := demo_platform 0 "" ["/base/lib"] [] VNone VNone in
  let missing := VDict [("name", VStr "nofile"); ("path", VStr "nofile");
                        ("root", VStr "/base")] in
  let lib := VDict [("name", VStr "lib"); ("path", VStr "lib"); ("root", VStr "/base")] in
  let r := for_each [missing; lib] (install_file_entry W [] (parse "/base")) (fresh_state [] []) in
  resolved [] missing = Ok (parse "/base/nofile") /\
  snd r = Ok tt /\ sys_path (fst r) = ["/base/lib"].
Proof.
  intros W missing lib r. split; [reflexivity|].
  destruct (C9_missing_entry_skipped W [] (parse "/base") missing (parse "/base/nofile")
              [lib] (fresh_state [] []) eq_refl eq_refl eq_refl) as (_ & _ & _ & Hloop).
  subst r. rewrite Hloop. split; reflexivity.
Defined.

(* ====================================================================== *)
(** ** Life cycle: the [PkgInitialized] flag *)
(* ====================================================================== *)

Lemma sets_flag_bind {A B} (c : M A) (k : A -> M B) :
  (forall a, sets_flag (k a)) -> sets_flag (bind c k).
Proof.
  intros Hk s s' b H. apply bind_ok in H as (s1 & a & _ & H2). eapply Hk, H2.
Qed.

Lemma sets_flag_final : sets_flag (modify (set_PkgInitialized true)).
Proof. intros s s' a [= <- _]. reflexivity. Qed.

(** A successful [_set_swenv_from_file] leaves [PkgInitialized] set. *)
Lemma set_swenv_from_file_sets_flag W cwd fpath :
  sets_flag (_set_swenv_from_file W cwd fpath).
Proof.
  intros s s' a H. unfold _set_swenv_from_file in H.
  apply bind_ok in H as (s1 & init & Hg & H). injection Hg as <- <-.
  destruct (PkgInitialized s) eqn:Hi.
  - injection H as <- _. exact Hi.
  - revert H. generalize s at 1. intros s0 H. revert s0 s' a H.
    change (sets_flag
      (current <- gets SoftwareEnv ;;
       (if py_truthy current then raise (AssertionError "") else ret tt) ;;
       modify (set_CurrentSwspecId VNone) ;;
       swenv <- lift (plat_read_yaml W (to_str (parse fpath))) ;;
       modify (set_SoftwareEnv swenv) ;;
       _my_print_msg ("set from file: " ++ py_format W swenv) ;;
       (if py_truthy swenv then ret tt else raise (AssertionError "")) ;;
       normalize_global cwd swenv (parent (parse fpath)) ;;
       install_global W (parent (parse fpath)) ;;
       modify (set_PkgInitialized true))).
    repeat (apply sets_flag_bind; intros ?). apply sets_flag_final.
Qed.

(** C10 (as stated, refuted).  The import-time normalize-and-install sets
    [PkgInitialized]; [setup] is then rejected and leaves [SoftwareEnv]
    alone, but [load] is not: it has no test of the flag and replaces the
    environment document by the saved one. *)
Lemma C10_load_replaces_document_after_init :
  let W := demo_platform 0 "" ["/pkg/lib"] ["/pkg/cpd_software_env.yaml"]
             (VDict [("files", VList [VStr "lib"])])
             (VDict [("name", VStr "other")]) in
  let st1 := fst (module_init W "/work" (fresh_state [] [])) in
  PkgInitialized st1 = true /\
  SoftwareEnv st1 = VDict [("files", VList [VDict [("name", VStr "lib");
                                                   ("path", VStr "lib");
                                                   ("root", VStr "/pkg")]])] /\
  SoftwareEnv (fst (setup W "/work" "new.yaml" st1)) = SoftwareEnv st1 /\
  snd (load W "other" st1) = Ok tt /\
  SoftwareEnv (fst (load W "other" st1)) = VDict [("name", VStr "other")] /\
  SoftwareEnv (fst (load W "other" st1)) <> SoftwareEnv st1.
Proof. repeat split. discriminate. Qed.

(** C10 (amended).  A successful [_set_swenv_from_file] sets the flag.
    Once the flag is set, [setup] / [_set_swenv_from_file] only prints an
    error: the environment document, the search path, the message sink and
    the pending downloads are as before, nothing is read, normalized or
    installed.  [load] does not look at the flag: it installs nothing, but
    it replaces the environment document by the saved one (or propagates
    the reader's exception). *)
Theorem C10_setup_rejected_once_initialized W cwd fpath name st :
  PkgInitialized st = true ->
  (forall s s', _set_swenv_from_file W cwd fpath s = (s', Ok tt) ->
                PkgInitialized s' = true) /\
  _set_swenv_from_file W cwd fpath st =
    (set_stdout (stdout st ++ [ALREADY_INITIALIZED]) st, Ok tt) /\
  setup W cwd fpath st =
    (set_stdout (stdout st ++ [ALREADY_INITIALIZED]) st, Ok tt) /\
  load W name st =
    match plat_json_load W (saved_json name) with
    | Ok doc => (set_SoftwareEnv doc st, Ok tt)
    | Raise e => (st, Raise e)
    end.
Proof.
  intros Hi. split; [|split; [|split]].
  - intros s s'. apply set_swenv_from_file_sets_flag.
  - unfold _set_swenv_from_file, bind, gets. now rewrite Hi.
  - unfold setup, _set_swenv_from_file, bind, gets. now rewrite Hi.
  - unfold load, _set_swenv_from_jsonfile, bind, lift, saved_json.
    now destruct (plat_json_load W _).
Qed.

(** C10, after an import-time installation. *)
Lemma C10_witness :
  let W := demo_platform 0 "" ["/pkg/lib"] ["/pkg/cpd_software_env.yaml"]
             (VDict [("files", VList [VStr "lib"])])
             (VDict [("name", VStr "other")]) in
  let st1 := fst (module_init W "/work" (fresh_state [] [])) in
  PkgInitialized st1 = true /\
  _set_swenv_from_file W "/work" "new.yaml" st1 =
    (set_stdout (stdout st1 ++ [ALREADY_INITIALIZED]) st1, Ok tt).
Proof.
  intros W st1. split; [reflexivity|].
  exact (proj1 (proj2 (C10_setup_rejected_once_initialized W "/work" "new.yaml" "other"
                         st1 eq_refl))).
Defined.

(* ====================================================================== *)
(** ** Installer: what the steps leave alone *)
(* ====================================================================== *)

Lemma frame_refl s : frame s s.
Proof. now split. Qed.

Lemma frame_trans s1 s2 s3 : frame s1 s2 -> frame s2 s3 -> frame s1 s3.
Proof. intros [H1 H2] [H3 H4]. split; congruence. Qed.

Lemma keeps_ret {A} (a : A) : keeps (ret a).
Proof. intros s. apply frame_refl. Qed.

Lemma keeps_raise {A} e : keeps (@raise State A e).
Proof. intros s. apply frame_refl. Qed.

Lemma keeps_lift {A} (r : result A) : keeps (lift r).
Proof. intros s. apply frame_refl. Qed.

Lemma keeps_gets {A} (f : State -> A) : keeps (gets f).
Proof. intros s. apply frame_refl. Qed.

Lemma keeps_bind {A B} (c : M A) (k : A -> M B) :
  keeps c -> (forall a, keeps (k a)) -> keeps (bind c k).
Proof.
  intros Hc Hk s. unfold bind. specialize (Hc s).
  destruct (c s) as [s1 [a|e]]; simpl in *; [|exact Hc].
  eapply frame_trans; [exact Hc|apply Hk].
Qed.

Lemma keeps_modify (f : State -> State) :
  (forall s, frame s (f s)) -> keeps (modify f).
Proof. intros H s. apply H. Qed.

Lemma keeps_for_each {A} (l : list A) (body : A -> M unit) :
  (forall x, keeps (body x)) -> keeps (for_each l body).
Proof.
  intros Hb. induction l as [|x l IH]; simpl.
  - apply keeps_ret.
  - apply keeps_bind; [apply Hb|intros _; exact IH].
Qed.

Lemma keeps_print line : keeps (print line).
Proof. intros s. now split. Qed.

Lemma keeps_my_print_msg msg : keeps (_my_print_msg msg).
Proof.
  intros s. rewrite my_print_msg_run. simpl. split.
  - apply log_msg_pending.
  - now rewrite log_msg_environ.
Qed.

Lemma env_lookup_set_other env k k' v :
  k <> k' -> env_lookup (env_set env k v) k' = env_lookup env k'.
Proof.
  intros Hne. induction env as [|[k0 v0] env IH]; simpl.
  - destruct (String.eqb_spec k k'); [contradiction|reflexivity].
  - destruct (String.eqb_spec k0 k) as [->|Hk]; simpl.
    + destruct (String.eqb_spec k k'); [contradiction|reflexivity].
    + destruct (String.eqb_spec k0 k'); [reflexivity|exact IH].
Qed.

Lemma notebook_signal_pip_config env v :
  _running_in_ws_jupyterlab (env_set env "PIP_CONFIG_FILE" v) =
  _running_in_ws_jupyterlab env.
Proof.
  unfold _running_in_ws_jupyterlab, env_get.
  now rewrite !env_lookup_set_other by str_neq.
Qed.

Create HintDb keeps.
#[local] Hint Resolve keeps_ret keeps_raise keeps_lift keeps_gets keeps_print
  keeps_my_print_msg : keeps.

(** Split a computation along its binds, conditionals and matches. *)
Ltac keeps_step :=
  match goal with
  | |- keeps (bind _ _) => apply keeps_bind; [|intros]
  | |- keeps (for_each _ _) => apply keeps_for_each; intros
  | |- keeps (modify _) => apply keeps_modify; intros; split; simpl
  | |- keeps (if ?b then _ else _) => destruct b
  | |- keeps (match ?x with _ => _ end) => destruct x
  | |- keeps _ => solve [auto with keeps]
  end.

Lemma keeps_run_pip W cmd : keeps (_run_pip W cmd).
Proof. unfold _run_pip. repeat keeps_step. Qed.

Lemma keeps_reqfile_line pkg dep : keeps (reqfile_line pkg dep).
Proof. unfold reqfile_line. repeat keeps_step; reflexivity. Qed.

Lemma keeps_install_pip W piplist : keeps (_install_pip_packages_list W piplist).
Proof.
  unfold _install_pip_packages_list, _map_pip_packages_list_to_reqfile.
  repeat keeps_step; try reflexivity;
    try apply keeps_reqfile_line; try apply keeps_run_pip.
  apply notebook_signal_pip_config.
Qed.

Lemma keeps_install_file_entry W swenv swenv_path p :
  keeps (install_file_entry W swenv swenv_path p).
Proof.
  unfold install_file_entry, _install_swenv_dir, _install_swenv_file.
  repeat keeps_step; reflexivity.
Qed.

Lemma keeps_install_key W swenv swenv_path ki :
  ki <> "assets" -> ki <> "asset" -> keeps (install_key W swenv swenv_path ki).
Proof.
  intros H1 H2. unfold install_key.
  destruct (String.eqb ki "pip"); [apply keeps_install_pip|].
  destruct (str_in ki _); [apply keeps_print|].
  destruct (String.eqb ki "files" || String.eqb ki "file").
  { apply keeps_for_each. intros. apply keeps_install_file_entry. }
  destruct (String.eqb ki "modules" || String.eqb ki "module"); [apply keeps_print|].
  destruct (String.eqb_spec ki "assets"); [contradiction|].
  destruct (String.eqb_spec ki "asset"); [contradiction|]. simpl.
  destruct (negb _); auto with keeps.
Qed.

(* ====================================================================== *)
(** ** Installer: deferred assets *)
(* ====================================================================== *)


Lemma install_key_assets W swenv swenv_path ki :
  ki = "assets" \/ ki = "asset" ->
  install_key W swenv swenv_path ki = install_assets W swenv.
Proof. intros [-> | ->]; reflexivity. Qed.



(** [download_pending_assets] with a non-empty pending list. *)
Lemma download_pending_run W s l :
  AssetsDownloadPending s = VList l -> l <> [] ->
  download_pending_assets W s =
  let s1 := log_msg ("Downloading assets " ++ py_format W (VList l)) s in
  if env_true (environ s) "USER_ACCESS_TOKEN" then
    match pending_conn (environ s) with
    | Ok conn =>
        match _download_assets W conn (VList l) (parse (plat_pkg_dir W)) s1 with
        | (s2, Ok _) => (set_AssetsDownloadPending (VList []) s2, Ok tt)
        | (s2, Raise e) => (s2, Raise e)
        end
    | Raise e => (s1, Raise e)
    end
  else (s1, Raise (AssertionError MISSING_TOKEN)).
Proof.
  intros Hp Hne.
  assert (Ht : py_truthy (VList l) = true) by (destruct l; [contradiction|reflexivity]).
  unfold download_pending_assets.
  erewrite bind_step by reflexivity. rewrite Hp, Ht. cbv [negb].
  erewrite bind_step by reflexivity.
  erewrite bind_step by apply my_print_msg_run.
  erewrite bind_step by reflexivity.
  rewrite log_msg_environ.
  destruct (env_true (environ s) "USER_ACCESS_TOKEN"); [|reflexivity].
  erewrite bind_step by reflexivity.
  destruct (pending_conn (environ s)) as [conn|e]; [|reflexivity].
  erewrite bind_step by reflexivity.
  erewrite bind_step by reflexivity.
  rewrite log_msg_pending, Hp.
  unfold bind.
  destruct (_download_assets W conn (VList l) _ _) as [s2 [paths|e]]; reflexivity.
Qed.



(* ====================================================================== *)
(** ** Normalizer: what a run leaves alone *)
(* ====================================================================== *)

Lemma lookup_fold_singular d singular plural :
  singular <> plural -> PyDict.lookup (fold_doc d singular plural) singular = None.
Proof.
  intros Hne. unfold fold_doc, PyDict.mem.
  destruct (PyDict.lookup d singular) eqn:E; [|exact E].
  rewrite lookup_set_other by congruence. apply lookup_remove_same.
Qed.

(** The document after the three loops, wherever they stop, differs from
    the document before them only under [files], [modules] and [assets]. *)
Lemma loops_lookup_other base s k :
  k <> "files" -> k <> "modules" -> k <> "assets" ->
  PyDict.lookup (n_swenv (fst (loops base s))) k = PyDict.lookup (n_swenv s) k.
Proof.
  intros H1 H2 H3. destruct s as [d out]. unfold loops, bind.
  rewrite normalize_key_stage.
  destruct (stage_outcome (file_entry base) "file" _) as [[]|e]; simpl.
  2:{ apply lookup_stage_other. congruence. }
  rewrite normalize_key_stage.
  destruct (stage_outcome (file_entry base) "module" _) as [[]|e]; simpl.
  2:{ rewrite !lookup_stage_other by congruence. reflexivity. }
  rewrite normalize_key_stage. simpl.
  rewrite !lookup_stage_other by congruence. reflexivity.
Qed.

(** A key that is not in a list differs from each member of it. *)
Ltac not_listed Hk :=
  let E := fresh in
  intros E; subst; apply Hk; simpl; auto 10.

Lemma prelude_lookup_other d k :
  ~ In k ["file"; "files"; "module"; "modules"; "asset"; "assets"; "pip"] ->
  PyDict.lookup (prelude d) k = PyDict.lookup d k.
Proof.
  intros Hk. unfold prelude.
  rewrite !lookup_coerce_other by not_listed Hk.
  rewrite !lookup_fold_other by not_listed Hk.
  reflexivity.
Qed.






Lemma prelude_singular d k :
  PyDict.lookup (prelude d) (kind_name k) = None.
Proof.
  unfold prelude. destruct k; simpl;
    rewrite !lookup_coerce_other by str_neq;
    rewrite ?lookup_fold_other by str_neq;
    apply lookup_fold_singular; str_neq.
Qed.

(** X3.  After a successful normalization no singular key ([file],
    [module], [asset]) is left, and a plural key is present exactly when
    its singular or plural form was given. *)
Theorem X3_singular_keys_folded cwd d swenv_path n k :
  _normalize_swenv cwd d swenv_path = (n, Ok tt) ->
  PyDict.lookup (n_swenv n) (kind_name k) = None /\
  (PyDict.lookup (n_swenv n) (kind_plural k) = None <->
   given d (kind_name k) (kind_plural k) = None).
Proof.
  intros H.
  destruct (normalize_success cwd d swenv_path n H) as (Hn & _ & Hk).
  split.
  - assert (E : n = fst (_normalize_swenv cwd d swenv_path)) by now rewrite H.
    rewrite E, normalize_run by assumption.
    rewrite loops_lookup_other by (destruct k; str_neq).
    apply prelude_singular.
  - destruct (Hk k) as [_ ->].
    destruct k; simpl;
      match goal with
      | |- context [given ?d ?a ?b] => destruct (given d a b)
      end; simpl; split; intros E; try discriminate E; reflexivity.
Qed.

(** X3, on a document that uses two singular keys. *)
Lemma X3_witness :
  let doc := [("file", VStr "lib.py"); ("asset", VList [VStr "foo.py"])] in
  exists n,
    _normalize_swenv "/work" doc (parse "/base") = (n, Ok tt) /\
    PyDict.lookup (n_swenv n) "file" = None /\
    PyDict.lookup (n_swenv n) "asset" = None.
Proof.
  intros doc. eexists. split; [reflexivity|]. split.
  - exact (proj1 (X3_singular_keys_folded "/work" doc (parse "/base") _ KFile eq_refl)).
  - exact (proj1 (X3_singular_keys_folded "/work" doc (parse "/base") _ KAsset eq_refl)).
Defined.

Lemma accepted_asset_fixed item entry :
  accepted asset_entry "asset" item entry -> accepted asset_entry "asset" entry entry.
Proof.
  intros [Hs Hc]. destruct (reserved_check_ok _ _ Hc) as (d & p & -> & _).
  split; [reflexivity|exact Hc].
Qed.

Lemma Forall2_diag {A} (R : A -> A -> Prop) l l' :
  (forall x y, R x y -> R y y) -> Forall2 R l l' -> Forall2 R l' l'.
Proof. intros HR H. induction H; constructor; eauto. Qed.

(** X4.  Asset expansion is idempotent: the [assets] list a successful
    normalization leaves is accepted unchanged by a second normalization,
    against any base directory. *)
Theorem X4_asset_normalization_idempotent cwd d swenv_path n l' cwd' swenv_path' :
  _normalize_swenv cwd d swenv_path = (n, Ok tt) ->
  PyDict.lookup (n_swenv n) "assets" = Some (VList l') ->
  _normalize_swenv cwd' [("assets", VList l')] swenv_path' =
  (MkNorm [("assets", VList l')] [], Ok tt).
Proof.
  intros H Hl.
  destruct (normalize_success cwd d swenv_path n H) as (Hn & _ & Hk).
  destruct (Hk KAsset) as [Ho Hf]. simpl kind_plural in Hf. rewrite Hf in Hl.
  unfold kind_outcome, stage_outcome in Ho.
  destruct (stage_value d KAsset) as [v0|] eqn:Hs; [|discriminate Hl].
  simpl in Hl. injection Hl as Hl.
  destruct (enumerate_not_list _ _ _ _ Hl) as [l ->].
  rewrite enumerate_list in Hl, Ho. simpl kind_step in *. simpl kind_name in *.
  destruct (loop_spec asset_entry "asset" l) as [l0 r] eqn:E.
  simpl in Hl, Ho. injection Hl as ->. subst r.
  apply loop_spec_ok in E.
  pose proof (loop_spec_complete _ _ _ _
                (Forall2_diag _ _ _ accepted_asset_fixed E)) as Hfix.
  rewrite normalize_run by reflexivity.
  change (prelude [("assets", VList l')]) with [("assets", VList l')].
  unfold loops.
  erewrite bind_step by reflexivity.
  erewrite bind_step by reflexivity.
  rewrite normalize_key_stage. unfold stage_doc, stage_outcome.
  change (PyDict.lookup [("assets", VList l')] "assets") with (Some (VList l')).
  cbv beta iota. rewrite enumerate_list, Hfix. reflexivity.
Qed.

(** X4, normalizing twice the specification's shorthand example. *)
Lemma X4_witness :
  let once := fst (_normalize_swenv "/work" [("asset", VList [VStr "foo.py"; VStr "d.csv"])]
                     (parse "/base")) in
  exists l',
    PyDict.lookup (n_swenv once) "assets" = Some (VList l') /\
    _normalize_swenv "/elsewhere" [("assets", VList l')] (parse "other") =
    (MkNorm [("assets", VList l')] [], Ok tt).
Proof.
  intros once. eexists. split; [reflexivity|].
  exact (X4_asset_normalization_idempotent "/work"
           [("asset", VList [VStr "foo.py"; VStr "d.csv"])] (parse "/base") once _
           "/elsewhere" (parse "other") eq_refl eq_refl).
Defined.

(* ====================================================================== *)
(** ** Installer: invariants of a whole installation *)
(* ====================================================================== *)

Section Preserves.

Variable R : State -> State -> Prop.
Hypothesis R_refl : forall s, R s s.
Hypothesis R_trans : forall a b c, R a b -> R b c -> R a c.

Lemma preserves_ret {A} (a : A) : preserves R (ret a).
Proof. intros s. apply R_refl. Qed.

Lemma preserves_raise {A} e : preserves R (@raise State A e).
Proof. intros s. apply R_refl. Qed.

Lemma preserves_lift {A} (r : result A) : preserves R (lift r).
Proof. intros s. apply R_refl. Qed.

Lemma preserves_gets {A} (f : State -> A) : preserves R (gets f).
Proof. intros s. apply R_refl. Qed.

Lemma preserves_bind {A B} (c : M A) (k : A -> M B) :
  preserves R c -> (forall a, preserves R (k a)) -> preserves R (bind c k).
Proof.
  intros Hc Hk s. unfold bind. specialize (Hc s).
  destruct (c s) as [s1 [a|e]]; simpl in *; [|exact Hc].
  eapply R_trans; [exact Hc|apply Hk].
Qed.

Lemma preserves_for_each {A} (l : list A) (body : A -> M unit) :
  (forall x, preserves R (body x)) -> preserves R (for_each l body).
Proof.
  intros Hb. induction l as [|x l IH]; simpl.
  - apply preserves_ret.
  - apply preserves_bind; [apply Hb|intros _; exact IH].
Qed.

Lemma preserves_modify (f : State -> State) :
  (forall s, R s (f s)) -> preserves R (modify f).
Proof. intros H s. apply H. Qed.

End Preserves.

Lemma grows_refl s : grows s s.
Proof. repeat split; exists []; now rewrite app_nil_r. Qed.

Lemma grows_trans a b c : grows a b -> grows b c -> grows a c.
Proof.
  intros (H1 & H2 & H3 & [m1 H4] & [o1 H5]) (G1 & G2 & G3 & [m2 G4] & [o2 G5]).
  repeat split; try congruence.
  - exists (m1 ++ m2)%list. rewrite G4, H4. now rewrite app_assoc.
  - exists (o1 ++ o2)%list. rewrite G5, H5. now rewrite app_assoc.
Qed.

Lemma grows_print line : preserves grows (print line).
Proof.
  intros s. repeat split; simpl.
  - exists []. now rewrite app_nil_r.
  - now exists [line].
Qed.

Lemma grows_my_print_msg msg : preserves grows (_my_print_msg msg).
Proof.
  intros s. rewrite my_print_msg_run. simpl.
  unfold log_msg. destruct (env_true _ _); repeat split; simpl.
  - now exists [msg].
  - now exists ["..swenv: " ++ msg].
  - now exists [msg].
  - exists []. now rewrite app_nil_r.
Qed.

(** A field update that is no message and no life-cycle global. *)
Ltac grows_update :=
  apply preserves_modify; intros ?; repeat split; simpl;
  exists []; now rewrite app_nil_r.

Ltac grows_step :=
  match goal with
  | |- preserves _ (bind _ _) => apply (preserves_bind _ grows_trans); [|intros]
  | |- preserves _ (for_each _ _) =>
      apply (preserves_for_each _ grows_refl grows_trans); intros
  | |- preserves _ (ret _) => apply (preserves_ret _ grows_refl)
  | |- preserves _ (raise _) => apply (preserves_raise _ grows_refl)
  | |- preserves _ (lift _) => apply (preserves_lift _ grows_refl)
  | |- preserves _ (gets _) => apply (preserves_gets _ grows_refl)
  | |- preserves _ (print _) => apply grows_print
  | |- preserves _ (_my_print_msg _) => apply grows_my_print_msg
  | |- preserves _ (modify _) => grows_update
  | |- preserves _ (if ?b then _ else _) => destruct b
  | |- preserves _ (match ?x with _ => _ end) => destruct x
  end.

Lemma grows_install_pip W piplist : preserves grows (_install_pip_packages_list W piplist).
Proof.
  unfold _install_pip_packages_list, _map_pip_packages_list_to_reqfile,
    reqfile_line, _run_pip.
  repeat grows_step.
Qed.

Lemma grows_install_file_entry W swenv swenv_path p :
  preserves grows (install_file_entry W swenv swenv_path p).
Proof.
  unfold install_file_entry, _install_swenv_dir, _install_swenv_file.
  repeat grows_step.
Qed.

Lemma grows_install_assets W swenv : preserves grows (install_assets W swenv).
Proof.
  unfold install_assets, _provision_assets, provision_asset.
  repeat grows_step.
Qed.

Lemma grows_install_key W swenv swenv_path ki :
  preserves grows (install_key W swenv swenv_path ki).
Proof.
  unfold install_key.
  destruct (String.eqb ki "pip"); [apply grows_install_pip|].
  destruct (str_in ki _); [apply grows_print|].
  destruct (String.eqb ki "files" || String.eqb ki "file").
  { apply (preserves_for_each _ grows_refl grows_trans).
    intros. apply grows_install_file_entry. }
  destruct (String.eqb ki "modules" || String.eqb ki "module"); [apply grows_print|].
  destruct (String.eqb ki "assets" || String.eqb ki "asset");
    [apply grows_install_assets|].
  destruct (negb _); [apply grows_my_print_msg|apply (preserves_ret _ grows_refl)].
Qed.

Lemma grows_install_swenv W swenv swenv_path :
  preserves grows (_install_swenv W swenv swenv_path).
Proof.
  unfold _install_swenv. apply (preserves_for_each _ grows_refl grows_trans).
  intros. apply grows_install_key.
Qed.

(** X5.  Whatever it installs and whether or not it raises,
    [_install_swenv] never changes the environment document, the
    [PkgInitialized] flag or the cached specification id, and never drops a
    message: the message sink and standard output after the call extend
    those before it. *)
Theorem X5_install_keeps_document_and_messages W swenv swenv_path st :
  let st' := fst (_install_swenv W swenv swenv_path st) in
  SoftwareEnv st' = SoftwareEnv st /\
  PkgInitialized st' = PkgInitialized st /\
  CurrentSwspecId st' = CurrentSwspecId st /\
  (exists more, PkgMsgs st' = (PkgMsgs st ++ more)%list) /\
  (exists out, stdout st' = (stdout st ++ out)%list).
Proof. exact (grows_install_swenv W swenv swenv_path st). Qed.

Lemma quiet_refl s : quiet s s.
Proof. now repeat split. Qed.

Lemma quiet_trans a b c : quiet a b -> quiet b c -> quiet a c.
Proof. intros (H1 & H2 & H3 & H4) (G1 & G2 & G3 & G4). repeat split; congruence. Qed.

Lemma quiet_log_msg msg s : quiet s (log_msg msg s).
Proof. unfold log_msg. destruct (env_true _ _); now repeat split. Qed.

Ltac key_listed Hk :=
  exfalso; subst; apply Hk; unfold ACTIONABLE; simpl; auto 10.

(** A key outside [ACTIONABLE] only prints or logs. *)
Lemma install_key_inert W swenv swenv_path ki s :
  ~ In ki ACTIONABLE ->
  snd (install_key W swenv swenv_path ki s) = Ok tt /\
  quiet s (fst (install_key W swenv swenv_path ki s)).
Proof.
  intros Hk. unfold install_key.
  destruct (String.eqb_spec ki "pip") as [E|_]; [key_listed Hk|].
  destruct (str_in ki _); [split; [reflexivity|now repeat split]|].
  destruct (String.eqb_spec ki "files") as [E|_]; [key_listed Hk|].
  destruct (String.eqb_spec ki "file") as [E|_]; [key_listed Hk|].
  cbv beta iota delta [orb].
  destruct (if String.eqb ki "modules" then true else String.eqb ki "module");
    [split; [reflexivity|now repeat split]|].
  destruct (String.eqb_spec ki "assets") as [E|_]; [key_listed Hk|].
  destruct (String.eqb_spec ki "asset") as [E|_]; [key_listed Hk|].
  destruct (negb _).
  - rewrite my_print_msg_run. split; [reflexivity|apply quiet_log_msg].
  - split; [reflexivity|apply quiet_refl].
Qed.

(** X6.  A document without [pip], [files], [file], [assets] or [asset]
    key installs nothing and cannot fail: whatever its other keys are
    (known, unknown, [modules], conda keys), the call returns normally with
    the search path, the pending downloads, the environment and the
    requirements file unchanged. *)
Theorem X6_install_without_actionable_keys W swenv swenv_path st :
  (forall k, In k (PyDict.keys swenv) -> ~ In k ACTIONABLE) ->
  let r := _install_swenv W swenv swenv_path st in
  snd r = Ok tt /\
  sys_path (fst r) = sys_path st /\
  AssetsDownloadPending (fst r) = AssetsDownloadPending st /\
  environ (fst r) = environ st /\
  tmp_requirements (fst r) = tmp_requirements st.
Proof.
  intros Hk. unfold _install_swenv.
  change (let r := for_each (PyDict.keys swenv) (install_key W swenv swenv_path) st in
          snd r = Ok tt /\ quiet st (fst r)).
  revert st. induction (PyDict.keys swenv) as [|ki keys IH]; intros st.
  - split; [reflexivity|apply quiet_refl].
  - destruct (install_key_inert W swenv swenv_path ki st (Hk ki (or_introl eq_refl)))
      as [Hok Hq].
    simpl. unfold bind.
    destruct (install_key W swenv swenv_path ki st) as [s1 r1]. simpl in Hok, Hq.
    subst r1.
    destruct (IH (fun k H => Hk k (or_intror H)) s1) as [Hok' Hq'].
    split; [exact Hok'|]. eapply quiet_trans; eassumption.
Qed.

(** X6, on a document holding only descriptive and unknown keys. *)
Lemma X6_witness :
  let W := demo_platform 1 "never run" [] [] VNone VNone in
  let doc := [("name", VStr "MyEnv"); ("modules", VList [VStr "m"]);
              ("conda", VList []); ("colour", VStr "blue")] in
  let r := _install_swenv W doc (parse "/base") (fresh_state ["/usr/lib"] []) in
  snd r = Ok tt /\ sys_path (fst r) = ["/usr/lib"].
Proof.
  intros W doc r.
  assert (H : forall k, In k (PyDict.keys doc) -> ~ In k ACTIONABLE).
  { intros k [<-|[<-|[<-|[<-|[]]]]] [E|[E|[E|[E|[E|[]]]]]]; discriminate E. }
  destruct (X6_install_without_actionable_keys W doc (parse "/base")
              (fresh_state ["/usr/lib"] []) H) as (H1 & H2 & _).
  split; assumption.
Defined.

Lemma keeps_provision_assets W v : keeps (_provision_assets W v).
Proof.
  unfold _provision_assets, provision_asset.
  repeat keeps_step; reflexivity.
Qed.

Lemma install_assets_not_deferring W swenv s :
  not_deferring swenv s -> frame s (fst (install_assets W swenv s)).
Proof.
  intros Hc. unfold not_deferring in Hc. unfold install_assets, bind, gets.
  destruct (py_truthy (PyDict.get swenv "assets_added_to_sdist" VNone)).
  { apply keeps_provision_assets. }
  destruct (_running_in_ws_jupyterlab (environ s)) eqn:Hj.
  { apply keeps_my_print_msg. }
  destruct (py_truthy (PyDict.get swenv "built_swenv" VNone)).
  { destruct Hc as [H|[H|H]]; discriminate H. }
  apply keeps_my_print_msg.
Qed.

Lemma install_keys_not_deferring W swenv swenv_path keys :
  forall s, not_deferring swenv s ->
            frame s (fst (for_each keys (install_key W swenv swenv_path) s)).
Proof.
  induction keys as [|ki keys IH]; intros s Hc; simpl.
  - apply frame_refl.
  - assert (Hstep : frame s (fst (install_key W swenv swenv_path ki s))).
    { destruct (String.eqb_spec ki "assets") as [Ha|Ha];
        [|destruct (String.eqb_spec ki "asset") as [Hb|Hb]].
      1,2: rewrite install_key_assets by auto;
           now apply install_assets_not_deferring.
      now apply keeps_install_key. }
    unfold bind.
    destruct (install_key W swenv swenv_path ki s) as [s1 [[]|e]]; simpl in *;
      [|exact Hstep].
    eapply frame_trans; [exact Hstep|]. apply IH.
    destruct Hstep as [_ Hj]. unfold not_deferring in *. rewrite Hj. exact Hc.
Qed.

(** X7.  The pending-download list is written in the deployed context
    only: when the assets were embedded ([assets_added_to_sdist]), or the
    process runs in the notebook front-end, or the document is not a built
    one ([built_swenv] not set), a whole installation -- complete or
    aborted by an exception -- leaves [AssetsDownloadPending] as it was. *)
Theorem X7_pending_untouched_outside_deployment W swenv swenv_path st :
  py_truthy (PyDict.get swenv "assets_added_to_sdist" VNone) = true \/
  _running_in_ws_jupyterlab (environ st) = true \/
  py_truthy (PyDict.get swenv "built_swenv" VNone) = false ->
  AssetsDownloadPending (fst (_install_swenv W swenv swenv_path st)) =
  AssetsDownloadPending st.
Proof.
  intros Hc. unfold _install_swenv.
  exact (proj1 (install_keys_not_deferring W swenv swenv_path _ st Hc)).
Qed.

(** X7, in local development and in the notebook. *)
Lemma X7_witness :
  let W := demo_platform 0 "" [] [] VNone VNone in
  let assets := VList [VDict [("name", VStr "foo"); ("path", VStr "foo.py");
                              ("asset_type", VStr "script")]] in
  AssetsDownloadPending
    (fst (_install_swenv W [("assets", assets)] (parse "/base") (fresh_state [] [])))
  = VNone /\
  AssetsDownloadPending
    (fst (_install_swenv W [("assets", assets); ("built_swenv", VBool true)]
            (parse "/base") (fresh_state [] [("HOSTNAME", "jupyter-lab-7")])))
  = VNone.
Proof.
  intros W assets. split.
  - exact (X7_pending_untouched_outside_deployment W [("assets", assets)] (parse "/base")
             (fresh_state [] []) (or_intror (or_intror eq_refl))).
  - exact (X7_pending_untouched_outside_deployment W
             [("assets", assets); ("built_swenv", VBool true)] (parse "/base")
             (fresh_state [] [("HOSTNAME", "jupyter-lab-7")])
             (or_intror (or_introl eq_refl))).
Defined.

(* ====================================================================== *)
(** ** Installer: source files and requirements *)
(* ====================================================================== *)

Lemma py_in_strings dir (sp : list string) :
  py_in (OStr dir) (map OStr sp) = in_list sp dir.
Proof.
  unfold py_in, in_list. induction sp as [|t sp IH]; simpl; [reflexivity|].
  now rewrite IH.
Qed.

(** X8.  [_install_swenv_file] is idempotent: the parent directory of a
    [.py] file is put in front of the search path unless it is already
    there, any other file changes nothing, and running the function again
    on its own result changes nothing -- the deduplication that
    [_install_swenv_dir] lacks. *)
Theorem X8_install_file_idempotent thefile st :
  let st1 := fst (_install_swenv_file thefile st) in
  let dir := to_str (parent thefile) in
  sys_path st1 =
    (if String.eqb (suffix thefile) ".py" && negb (in_list (sys_path st) dir)
     then dir :: sys_path st else sys_path st) /\
  _install_swenv_file thefile st1 = (st1, Ok tt).
Proof.
  cbv zeta. unfold _install_swenv_file.
  destruct (String.eqb (suffix thefile) ".py"); [|split; reflexivity].
  unfold bind, gets, modify, ret. cbn [fst snd sys_path set_sys_path andb].
  rewrite py_in_strings.
  destruct (in_list (sys_path st) (to_str (parent thefile))) eqn:Ein;
    cbn [negb fst snd sys_path set_sys_path].
  - rewrite py_in_strings, Ein. split; reflexivity.
  - rewrite py_in_strings. unfold in_list. cbn [existsb].
    rewrite String.eqb_refl. split; reflexivity.
Qed.

Lemma log_msg_tmp msg st : tmp_requirements (log_msg msg st) = tmp_requirements st.
Proof. unfold log_msg. now destruct (env_true _ _). Qed.

Lemma run_pip_run W cmd s :
  _run_pip W cmd s =
  (log_msg ("run " ++ cmd_repr W cmd) s,
   let '(rc, out) := plat_subprocess_run W cmd (log_msg ("run " ++ cmd_repr W cmd) s) in
   if rc =? 0 then Ok tt
   else Raise (Exception ["pip install failed: " ++ cmd_repr W cmd; out])).
Proof.
  unfold _run_pip. erewrite bind_step by apply my_print_msg_run.
  unfold bind, gets.
  destruct (plat_subprocess_run W cmd _) as [rc out].
  now destruct (rc =? 0).
Qed.

(** X9.  The pip step on a list of requirement strings leaves
    [tmp_requirements.txt] holding exactly one line per requirement, in
    order, whatever an earlier installation had written there, and its
    outcome is that of [pip install -r tmp_requirements.txt] run on that
    file: an exception with the captured output for a non-zero status. *)
Theorem X9_pip_requirements_file W reqs st :
  let r := _install_pip_packages_list W (VList (map VStr reqs)) st in
  let ready := log_msg ("run " ++ cmd_repr W PIP_INSTALL) (pip_ready W reqs st) in
  tmp_requirements (fst r) = req_lines reqs /\
  tmp_requirements ready = req_lines reqs /\
  snd r =
    (let '(rc, out) := plat_subprocess_run W PIP_INSTALL ready in
     if rc =? 0 then Ok tt
     else Raise (Exception ["pip install failed: " ++ cmd_repr W PIP_INSTALL; out])).
Proof.
  cbv zeta. rewrite install_pip_strings, run_pip_run. simpl.
  rewrite log_msg_tmp. unfold pip_ready. rewrite log_msg_tmp. simpl.
  repeat split.
Qed.

(** X10.  A requirement list with an entry that is neither a string nor a
    mapping with a true [path] makes the pip step fail with an assertion
    error before the installer is started; the requirements file is left
    with the lines of the entries before the offending one. *)
Theorem X10_bad_requirement_aborts W pre bad post st :
  bad_requirement bad = true ->
  let r := _install_pip_packages_list W
             (VList (map VStr pre ++ bad :: post)%list) st in
  snd r = Raise (AssertionError "") /\
  tmp_requirements (fst r) = req_lines pre /\
  PkgMsgs (fst r) = PkgMsgs (pip_conf_state W st).
Proof.
  intros Hbad. cbv zeta. unfold _install_pip_packages_list.
  rewrite (bind_step _ _ st (pip_conf_state W st) tt).
  2:{ unfold pip_conf_state.
      destruct (plat_is_file W (os_path_join (plat_pkg_dir W) "pip.conf")).
      - erewrite bind_step by apply my_print_msg_run. reflexivity.
      - reflexivity. }
  set (s0 := pip_conf_state W st).
  assert (Hloop : exists s1,
    for_each (map VStr pre ++ bad :: post)%list (reqfile_line W)
             (set_tmp_requirements "" s0) = (s1, Raise (AssertionError "")) /\
    tmp_requirements s1 = req_lines pre /\ PkgMsgs s1 = PkgMsgs s0).
  { rewrite for_each_app. erewrite bind_step by apply reqfile_lines_run.
    simpl tmp_requirements. simpl for_each.
    destruct bad as [| | | |l|d]; try discriminate Hbad.
    1-4: eexists; split; [reflexivity|split; reflexivity].
    simpl in Hbad. apply negb_true_iff in Hbad.
    eexists. unfold bind at 1. unfold reqfile_line. rewrite Hbad.
    split; [reflexivity|split; reflexivity]. }
  destruct Hloop as (s1 & Hrun & Ht & Hm).
  erewrite bind_raise.
  2:{ unfold _map_pip_packages_list_to_reqfile.
      erewrite bind_step by reflexivity.
      erewrite bind_step by reflexivity.
      erewrite bind_raise by exact Hrun. reflexivity. }
  simpl. repeat split; assumption.
Qed.

(** X10, with a mapping that lacks [path] after one good requirement. *)
Lemma X10_witness :
  let W := demo_platform 0 "" [] [] VNone VNone in
  let r := _install_pip_packages_list W
             (VList [VStr "numpy"; VDict [("index", VStr "x")]; VStr "pandas"])
             (fresh_state [] []) in
  snd r = Raise (AssertionError "") /\ tmp_requirements (fst r) = "numpy" ++ nl.
Proof.
  intros W r.
  destruct (X10_bad_requirement_aborts W ["numpy"] (VDict [("index", VStr "x")])
              [VStr "pandas"] (fresh_state [] []) eq_refl) as (H1 & H2 & _).
  split; assumption.
Defined.

(* ====================================================================== *)
(** ** Deferred download: further properties *)
(* ====================================================================== *)

(** X11.  A deferred download that returned normally is not repeated: the
    next call finds nothing pending, prints its diagnostic and contacts no
    one. *)
Theorem X11_download_not_repeated W s s' :
  download_pending_assets W s = (s', Ok tt) ->
  py_truthy (AssetsDownloadPending s') = false /\
  download_pending_assets W s' =
    (set_stdout (stdout s' ++ ["No assets to download"]) s', Ok tt).
Proof.
  intros H.
  assert (Hf : py_truthy (AssetsDownloadPending s') = false).
  { destruct (py_truthy (AssetsDownloadPending s)) eqn:Ht.
    - destruct (is_list (AssetsDownloadPending s)) eqn:Hl.
      2:{ assert (E : snd (download_pending_assets W s) = Raise (AssertionError "")).
          { unfold download_pending_assets, bind, gets. rewrite Ht. simpl.
            now rewrite Hl. }
          rewrite H in E. discriminate E. }
      destruct (AssetsDownloadPending s) as [| | | |l|] eqn:Hp; try discriminate Hl.
      assert (Hne : l <> []) by (intros ->; discriminate Ht).
      rewrite (download_pending_run W s l Hp Hne) in H. cbv zeta in H.
      destruct (env_true (environ s) "USER_ACCESS_TOKEN"); [|discriminate H].
      destruct (pending_conn (environ s)) as [conn|e]; [|discriminate H].
      destruct (_download_assets W conn (VList l) _ _) as [s2 [paths|e]];
        [|discriminate H].
      injection H as <-. reflexivity.
    - unfold download_pending_assets, bind, gets in H. rewrite Ht in H.
      injection H as <-. exact Ht. }
  split; [exact Hf|].
  unfold download_pending_assets, bind, gets. now rewrite Hf.
Qed.

(** X11, after a download with a token and a space identifier. *)
Lemma X11_witness :
  let W := demo_platform 0 "" [] [] VNone VNone in
  let s := set_AssetsDownloadPending
             (VList [VDict [("name", VStr "foo"); ("asset_type", VStr "script")]])
             (fresh_state [] [("USER_ACCESS_TOKEN", "tok"); ("SPACE_ID", "sp1")]) in
  let s' := fst (download_pending_assets W s) in
  snd (download_pending_assets W s) = Ok tt /\
  download_pending_assets W s' =
    (set_stdout (stdout s' ++ ["No assets to download"]) s', Ok tt).
Proof.
  intros W s s'. split; [reflexivity|].
  exact (proj2 (X11_download_not_repeated W s s' eq_refl)).
Defined.

(** What a successful [download_asset] says of its asset reference. *)
Lemma download_asset_ok W conn target asset_ref s s' path :
  download_asset W conn target asset_ref s = (s', Ok path) ->
  downloaded_as asset_ref path.
Proof.
  unfold download_asset. destruct asset_ref as [| | | | |d]; try discriminate.
  destruct (py_truthy (PyDict.get d "asset_type" (PyDict.get d "type" VNone)));
    [|discriminate].
  simpl negb. cbv iota.
  destruct (py_truthy (PyDict.get d "name" VNone)) eqn:Hn; [|discriminate].
  simpl negb. cbv iota.
  intros H. apply bind_ok in H as (s1 & asset & _ & H).
  destruct (py_truthy asset); [|discriminate H]. simpl in H.
  destruct (PyDict.get d "name" VNone) as [| | |n| |] eqn:En; try discriminate H.
  apply bind_ok in H as (s2 & [] & _ & H).
  destruct (PyDict.get d "path" (VStr (n ++ ".py"))) as [| | |p| |] eqn:Ep;
    try discriminate H.
  apply bind_ok in H as (s3 & [] & _ & H). injection H as _ <-.
  exists d, n, p. repeat split; try assumption.
  intros ->. discriminate Hn.
Qed.

(** X12.  When [_download_assets] returns, it returns one path per asset
    reference, in order: every reference is a mapping with a non-empty
    string name, and its path is the reference's [path] field or, when it
    has none, its name followed by [.py]. *)
Theorem X12_download_assets_paths W conn l target s s' paths :
  _download_assets W conn (VList l) target s = (s', Ok paths) ->
  conn <> [] /\ Forall2 downloaded_as l paths.
Proof.
  unfold _download_assets. destruct conn as [|c conn]; [discriminate|].
  intros H. split; [discriminate|].
  revert s s' paths H. induction l as [|a l IH]; intros s s' paths H; simpl in H.
  - injection H as _ <-. constructor.
  - apply bind_ok in H as (s1 & path & Ha & H).
    apply bind_ok in H as (s2 & rest & Hrest & H). injection H as _ <-.
    constructor; [eapply download_asset_ok; eassumption|eapply IH; eassumption].
Qed.

(** X12, for one asset with a path and one named only. *)
Lemma X12_witness :
  let W := demo_platform 0 "" [] [] VNone VNone in
  let l := [VDict [("name", VStr "data"); ("asset_type", VStr "data_asset");
                   ("path", VStr "in/data.csv")];
            VDict [("name", VStr "util"); ("type", VStr "script")]] in
  snd (_download_assets W [("space_id", VStr "sp1")] (VList l) (parse "/pkg")
         (fresh_state [] []))
  = Ok [VStr "in/data.csv"; VStr "util.py"] /\
  Forall2 downloaded_as l [VStr "in/data.csv"; VStr "util.py"].
Proof.
  intros W l. split; [reflexivity|].
  exact (proj2 (X12_download_assets_paths W [("space_id", VStr "sp1")] l (parse "/pkg")
                  (fresh_state [] []) _ _ eq_refl)).
Defined.

(* ====================================================================== *)
(** ** Life cycle: further properties *)
(* ====================================================================== *)

(** The implicit document of [default_swenv] is rejected by the
    normalizer, whatever the directories are. *)
Lemma implicit_default_normalize cwd root swenv_path :
  let doc := [("file", VList [VDict [("path", VStr "cpd_software_env");
                                     ("root", VStr root)]])] in
  snd (_normalize_swenv cwd doc swenv_path) =
    Raise (ValueError (reserved_msg "file" "cpd_software_env")) /\
  n_printed (fst (_normalize_swenv cwd doc swenv_path)) = [].
Proof.
  cbv zeta. rewrite normalize_run by reflexivity.
  change (prelude [("file", VList [VDict [("path", VStr "cpd_software_env");
                                          ("root", VStr root)]])])
    with [("files", VList [VDict [("path", VStr "cpd_software_env");
                                  ("root", VStr root)]])].
  unfold loops.
  erewrite bind_raise.
  2:{ rewrite normalize_key_stage. unfold stage_doc, stage_outcome.
      change (PyDict.lookup [("files", VList [VDict [("path", VStr "cpd_software_env");
                                                    ("root", VStr root)]])] "files")
        with (Some (VList [VDict [("path", VStr "cpd_software_env");
                                  ("root", VStr root)]])).
      cbv beta iota. rewrite enumerate_list.
      reflexivity. }
  split; reflexivity.
Qed.

(** X13.  When neither [cpd_software_env.yaml.json] nor
    [cpd_software_env.yaml] exists next to the module but the directory
    [cpd_software_env/] does, the import-time block builds the implicit
    document [{file: [{path: "cpd_software_env", root: <module dir>}]}];
    its path is the reserved prefix itself, so normalization rejects it:
    the import raises the value error, nothing is installed and the process
    stays uninitialized. *)
Theorem X13_implicit_directory_default_rejected W cwd st :
  PkgInitialized st = false ->
  plat_is_file W (default_json W) = false ->
  plat_is_file W (default_yaml W) = false ->
  plat_is_dir W (default_dir W) = true ->
  let r := module_init W cwd st in
  snd r = Raise (ValueError (reserved_msg "file" "cpd_software_env")) /\
  PkgInitialized (fst r) = false /\
  sys_path (fst r) = sys_path st.
Proof.
  intros Hi Hj Hy Hd. cbv zeta.
  set (doc := [("file", VList [VDict [("path", VStr "cpd_software_env");
                                      ("root", VStr (to_str (parse (plat_pkg_dir W))))]])]).
  assert (Hdef : default_swenv W st =
                 (set_stdout (stdout st ++ ["Implicit swenv from directory "
                                             ++ py_format W (VDict doc)]) st,
                  Ok (VDict doc, parse (plat_pkg_dir W)))).
  { unfold default_swenv. unfold default_json, default_yaml, default_dir in *.
    rewrite Hj, Hy, Hd. reflexivity. }
  destruct (implicit_default_normalize cwd (to_str (parse (plat_pkg_dir W)))
              (parse (plat_pkg_dir W))) as [Hr Hp].
  cbv zeta in Hr, Hp. fold doc in Hr, Hp.
  unfold module_init.
  rewrite (bind_step _ _ st st false) by (unfold gets; now rewrite Hi).
  cbv [negb].
  rewrite (bind_step _ _ _ _ _ Hdef). cbv beta iota.
  erewrite bind_step by reflexivity.
  change (py_truthy (VDict doc)) with true. cbv iota.
  erewrite bind_step by reflexivity.
  unfold normalize_global.
  destruct (_normalize_swenv cwd doc (parse (plat_pkg_dir W))) as [n r].
  simpl in Hr, Hp. subst r.
  erewrite bind_raise.
  2:{ erewrite bind_step by reflexivity. reflexivity. }
  simpl. repeat split. exact Hi.
Qed.

(** X13, with a module directory holding only [cpd_software_env/]. *)
Lemma X13_witness :
  let W := demo_platform 0 "" ["/pkg/cpd_software_env"] [] VNone VNone in
  snd (module_init W "/work" (fresh_state [] [])) =
    Raise (ValueError (reserved_msg "file" "cpd_software_env")).
Proof.
  intros W.
  exact (proj1 (X13_implicit_directory_default_rejected W "/work" (fresh_state [] [])
                  eq_refl eq_refl eq_refl eq_refl)).
Defined.


Lemma set_nonempty d k v : PyDict.set d k v <> [].
Proof.
  destruct d as [|[k' v'] d]; simpl; [discriminate|].
  destruct (String.eqb k' k); discriminate.
Qed.

Lemma keeps_nonempty_bind {A B} (c : SE NormState A) (k : A -> SE NormState B) :
  keeps_nonempty c -> (forall a, keeps_nonempty (k a)) -> keeps_nonempty (bind c k).
Proof.
  intros Hc Hk s Hs. unfold bind. specialize (Hc s Hs).
  destruct (c s) as [s1 [a|e]]; simpl in *; [apply Hk; exact Hc|exact Hc].
Qed.

Lemma keeps_nonempty_lift {A} (r : result A) : keeps_nonempty (lift r).
Proof. intros s Hs. exact Hs. Qed.

Lemma keeps_nonempty_print line : keeps_nonempty (n_print line).
Proof. intros s Hs. exact Hs. Qed.

Lemma keeps_nonempty_update (f : Dict -> Dict) :
  (forall d, f d <> []) -> keeps_nonempty (n_update f).
Proof. intros Hf s _. apply Hf. Qed.

Ltac nonempty_step :=
  match goal with
  | |- keeps_nonempty (bind _ _) => apply keeps_nonempty_bind; [|intros]
  | |- keeps_nonempty (n_print _) => apply keeps_nonempty_print
  | |- keeps_nonempty (n_update _) =>
      apply keeps_nonempty_update; intros; apply set_nonempty
  | |- keeps_nonempty (ret ?a) => apply (keeps_nonempty_lift (Ok a))
  | |- keeps_nonempty (raise ?e) => apply (keeps_nonempty_lift (Raise e))
  | |- keeps_nonempty (gets _) => intros ? ?; assumption
  | |- keeps_nonempty (lift _) => apply keeps_nonempty_lift
  | |- keeps_nonempty (if ?b then _ else _) => destruct b
  | |- keeps_nonempty (match ?x with _ => _ end) => destruct x
  end.

(** Key folding assigns the plural key right after it pops the singular
    one, and every later step only assigns: a document with a key never
    becomes empty, wherever the run stops. *)
Lemma normalize_keeps_nonempty cwd d swenv_path :
  d <> [] -> n_swenv (fst (_normalize_swenv cwd d swenv_path)) <> [].
Proof.
  intros Hd. unfold _normalize_swenv.
  assert (H : keeps_nonempty (normalize_body cwd swenv_path)).
  { unfold normalize_body, fold_key, coerce_list, normalize_key. simpl for_each.
    repeat nonempty_step. }
  apply H. exact Hd.
Qed.


Lemma log_msg_grows msg st : grows st (log_msg msg st).
Proof.
  pose proof (grows_my_print_msg msg st) as H.
  now rewrite my_print_msg_run in H.
Qed.

(** With the flag unset and a document already in place, [setup] fails its
    first assertion and touches nothing. *)
Lemma setup_blocked W cwd fpath st :
  PkgInitialized st = false ->
  py_truthy (SoftwareEnv st) = true ->
  setup W cwd fpath st = (st, Raise (AssertionError "")).
Proof.
  intros Hi Ht. unfold setup, _set_swenv_from_file, bind, gets.
  now rewrite Hi, Ht.
Qed.

(** Up to the normalization, a [setup] that can read a true document. *)
Lemma setup_read W cwd fpath doc st :
  PkgInitialized st = false ->
  py_truthy (SoftwareEnv st) = false ->
  plat_read_yaml W (to_str (parse fpath)) = Ok doc ->
  py_truthy doc = true ->
  setup W cwd fpath st =
  (normalize_global cwd doc (parent (parse fpath)) ;;
   install_global W (parent (parse fpath)) ;;
   modify (set_PkgInitialized true))
    (log_msg ("set from file: " ++ py_format W doc)
       (set_SoftwareEnv doc (set_CurrentSwspecId VNone st))).
Proof.
  intros Hi He Hr Hd. unfold setup, _set_swenv_from_file.
  cbv [bind gets modify lift ret raise].
  rewrite Hi, He, Hr. cbv beta iota.
  rewrite my_print_msg_run. cbv beta iota.
  now rewrite Hd.
Qed.

(** After a [setup] that read a true document, whatever happened next:
    the global holds a true document, and the flag is set exactly when the
    call returned. *)
Lemma setup_after_read W cwd fpath doc st :
  PkgInitialized st = false ->
  py_truthy (SoftwareEnv st) = false ->
  plat_read_yaml W (to_str (parse fpath)) = Ok doc ->
  py_truthy doc = true ->
  let r := setup W cwd fpath st in
  py_truthy (SoftwareEnv (fst r)) = true /\
  PkgInitialized (fst r) = match snd r with Ok _ => true | Raise _ => false end.
Proof.
  intros Hi He Hr Hd. cbv zeta. rewrite (setup_read W cwd fpath doc) by assumption.
  set (s1 := log_msg _ _).
  assert (H1 : SoftwareEnv s1 = doc /\ PkgInitialized s1 = false).
  { destruct (log_msg_grows ("set from file: " ++ py_format W doc)
                (set_SoftwareEnv doc (set_CurrentSwspecId VNone st)))
      as (G1 & G2 & _).
    fold s1 in G1, G2. split; [exact G1|]. rewrite G2. exact Hi. }
  destruct H1 as [Hs1 Hi1].
  destruct doc as [| | | |l|d];
    try (unfold normalize_global, bind, raise; simpl; rewrite Hs1, Hi1; now split).
  unfold normalize_global.
  pose proof (normalize_keeps_nonempty cwd d (parent (parse fpath))) as Hne.
  destruct (_normalize_swenv cwd d (parent (parse fpath))) as [n r]. simpl in Hne.
  assert (Hn : py_truthy (VDict (n_swenv n)) = true).
  { simpl. destruct (n_swenv n); [|reflexivity].
    exfalso. apply Hne; [|reflexivity]. intros ->. discriminate Hd. }
  cbv beta iota.
  set (s2 := set_stdout (stdout s1 ++ n_printed n)
               (set_SoftwareEnv (VDict (n_swenv n)) s1)).
  assert (E1 : (modify (fun s => set_stdout (stdout s ++ n_printed n)
                                   (set_SoftwareEnv (VDict (n_swenv n)) s)) ;;
                lift r) s1 = (s2, r)) by reflexivity.
  destruct r as [[]|e].
  2:{ rewrite (bind_raise _ _ _ _ _ E1). simpl. rewrite Hi1. now split. }
  rewrite (bind_step _ _ _ _ _ E1).
  assert (E2 : install_global W (parent (parse fpath)) s2 =
               _install_swenv W (n_swenv n) (parent (parse fpath)) s2) by reflexivity.
  pose proof (grows_install_swenv W (n_swenv n) (parent (parse fpath)) s2)
    as (G1 & G2 & _).
  destruct (_install_swenv W (n_swenv n) (parent (parse fpath)) s2)
    as [s3 [[]|e]] eqn:E3; simpl in G1, G2.
  - rewrite (bind_step _ _ s2 s3 tt E2). simpl. rewrite G1. now split.
  - rewrite (bind_raise _ _ s2 s3 e E2). simpl. rewrite G1, G2. now split.
Qed.

(** X14.  A [setup] that read a non-empty document and then failed, in
    normalization or in installation, cannot be repeated: the flag stays
    unset but the global keeps the document, so every later [setup], with
    whatever file, fails its first assertion and changes nothing. *)
Theorem X14_failed_setup_blocks_retry W cwd fpath doc e st :
  PkgInitialized st = false ->
  py_truthy (SoftwareEnv st) = false ->
  plat_read_yaml W (to_str (parse fpath)) = Ok doc ->
  py_truthy doc = true ->
  snd (setup W cwd fpath st) = Raise e ->
  let st' := fst (setup W cwd fpath st) in
  PkgInitialized st' = false /\
  py_truthy (SoftwareEnv st') = true /\
  forall fpath', setup W cwd fpath' st' = (st', Raise (AssertionError "")).
Proof.
  intros Hi He Hr Hd Hf st'.
  destruct (setup_after_read W cwd fpath doc st Hi He Hr Hd) as [Ht Hflag].
  rewrite Hf in Hflag. fold st' in Ht, Hflag.
  split; [exact Hflag|]. split; [exact Ht|].
  intros fpath'. now apply setup_blocked.
Qed.

(** X14, for a document whose only file has the reserved prefix. *)
Lemma X14_witness :
  let W := demo_platform 0 "" [] []
             (VDict [("files", VList [VStr "cpd_software_env_x.py"])]) VNone in
  let st' := fst (setup W "/work" "env.yaml" (fresh_state [] [])) in
  snd (setup W "/work" "env.yaml" (fresh_state [] [])) =
    Raise (ValueError (reserved_msg "file" "cpd_software_env_x.py")) /\
  setup W "/work" "other.yaml" st' = (st', Raise (AssertionError "")).
Proof.
  intros W st'. split; [reflexivity|].
  exact (proj2 (proj2 (X14_failed_setup_blocks_retry W "/work" "env.yaml" _ _
                         (fresh_state [] []) eq_refl eq_refl eq_refl eq_refl eq_refl))
           "other.yaml").
Defined.

(** X15.  [load] installs nothing and does not set the flag.  In a process
    that is not initialized, once [load] has put a non-empty saved document
    in place, [setup] fails its first assertion and changes nothing. *)
Theorem X15_setup_after_load_asserts W cwd name fpath doc st :
  PkgInitialized st = false ->
  plat_json_load W (saved_json name) = Ok doc ->
  py_truthy doc = true ->
  let st1 := fst (load W name st) in
  snd (load W name st) = Ok tt /\
  st1 = set_SoftwareEnv doc st /\
  setup W cwd fpath st1 = (st1, Raise (AssertionError "")).
Proof.
  intros Hi Hl Hd st1.
  assert (E : load W name st = (set_SoftwareEnv doc st, Ok tt)).
  { unfold load, _set_swenv_from_jsonfile, bind, lift. fold (saved_json name).
    now rewrite Hl. }
  subst st1. rewrite E. simpl. split; [reflexivity|]. split; [reflexivity|].
  apply setup_blocked; [exact Hi|exact Hd].
Qed.

(** X15, in a fresh process. *)
Lemma X15_witness :
  let W := demo_platform 0 "" [] [] (VDict [("pip", VStr "six")])
             (VDict [("name", VStr "saved")]) in
  let st1 := fst (load W "saved" (fresh_state [] [])) in
  setup W "/work" "env.yaml" st1 = (st1, Raise (AssertionError "")).
Proof.
  intros W st1.
  exact (proj2 (proj2 (X15_setup_after_load_asserts W "/work" "saved" "env.yaml" _
                         (fresh_state [] []) eq_refl eq_refl eq_refl))).
Defined.


(** The document a successful [setup] leaves in the global: the one read,
    as its normalization left it. *)
Lemma setup_ok_document W cwd fpath d st st' :
  PkgInitialized st = false ->
  plat_read_yaml W (to_str (parse fpath)) = Ok (VDict d) ->
  d <> [] ->
  setup W cwd fpath st = (st', Ok tt) ->
  exists n,
    _normalize_swenv cwd d (parent (parse fpath)) = (n, Ok tt) /\
    SoftwareEnv st' = VDict (n_swenv n) /\
    PkgInitialized st' = true.
Proof.
  intros Hi Hr Hd H.
  destruct (py_truthy (SoftwareEnv st)) eqn:He.
  { rewrite setup_blocked in H by assumption. discriminate H. }
  assert (Ht : py_truthy (VDict d) = true) by (destruct d; [congruence|reflexivity]).
  rewrite (setup_read W cwd fpath (VDict d) st Hi He Hr Ht) in H.
  revert H. set (s1 := log_msg _ _). unfold normalize_global.
  destruct (_normalize_swenv cwd d (parent (parse fpath))) as [n r].
  cbv beta iota.
  set (s2 := set_stdout (stdout s1 ++ n_printed n)
               (set_SoftwareEnv (VDict (n_swenv n)) s1)).
  assert (E1 : (modify (fun s => set_stdout (stdout s ++ n_printed n)
                                   (set_SoftwareEnv (VDict (n_swenv n)) s)) ;;
                lift r) s1 = (s2, r)) by reflexivity.
  destruct r as [[]|e].
  2:{ rewrite (bind_raise _ _ _ _ _ E1). discriminate. }
  rewrite (bind_step _ _ _ _ _ E1).
  assert (E2 : install_global W (parent (parse fpath)) s2 =
               _install_swenv W (n_swenv n) (parent (parse fpath)) s2) by reflexivity.
  pose proof (grows_install_swenv W (n_swenv n) (parent (parse fpath)) s2)
    as (G1 & _).
  destruct (_install_swenv W (n_swenv n) (parent (parse fpath)) s2)
    as [s3 [[]|e]] eqn:E3; simpl in G1.
  - rewrite (bind_step _ _ s2 s3 tt E2). intros [= <-].
    exists n. split; [reflexivity|]. split; [exact G1|reflexivity].
  - rewrite (bind_raise _ _ s2 s3 e E2). discriminate.
Qed.

(** X16.  After a successful [setup] from a file whose document declares a
    true [name], [get_name()] returns that name: normalization and
    installation leave the key alone. *)
Theorem X16_name_after_setup W cwd fpath d nm st st' :
  PkgInitialized st = false ->
  plat_read_yaml W (to_str (parse fpath)) = Ok (VDict d) ->
  PyDict.lookup d "name" = Some nm ->
  py_truthy nm = true ->
  setup W cwd fpath st = (st', Ok tt) ->
  get_name VNone st' = (st', Ok nm).
Proof.
  intros Hi Hr Hl Ht H.
  assert (Hd : d <> []) by (intros ->; discriminate Hl).
  destruct (setup_ok_document W cwd fpath d st st' Hi Hr Hd H) as (n & En & Hs & _).
  assert (Hk : ~ In "name" ["file"; "files"; "module"; "modules"; "asset"; "assets"; "pip"]).
  { simpl. intros [E|[E|[E|[E|[E|[E|[E|[]]]]]]]]; discriminate E. }
  assert (Hname : PyDict.lookup (n_swenv n) "name" = Some nm).
  { destruct (normalize_success cwd d (parent (parse fpath)) n En) as (Hn & _).
    rewrite normalize_run in En by assumption.
    replace n with (fst (loops (absolute cwd (parent (parse fpath)))
                           (MkNorm (prelude d) []))) by now rewrite En.
    rewrite loops_lookup_other by (intros E; discriminate E).
    simpl. rewrite prelude_lookup_other by exact Hk. exact Hl. }
  unfold get_name. simpl py_truthy. cbv [bind gets ret raise].
  rewrite Hs. simpl py_truthy.
  destruct (n_swenv n) as [|kv rest] eqn:Edoc; [discriminate Hname|].
  cbv [negb]. unfold PyDict.get. rewrite Hname, Ht. reflexivity.
Qed.

(** X16, for a named document with one pip requirement. *)
Lemma X16_witness :
  let W := demo_platform 0 "" [] []
             (VDict [("name", VStr "MyEnv"); ("pip", VStr "six")]) VNone in
  let st' := fst (setup W "/work" "env.yaml" (fresh_state [] [])) in
  get_name VNone st' = (st', Ok (VStr "MyEnv")).
Proof.
  intros W st'.
  exact (X16_name_after_setup W "/work" "env.yaml" _ (VStr "MyEnv") (fresh_state [] []) st'
           eq_refl eq_refl eq_refl eq_refl eq_refl).
Defined.

(** X17.  [get_name] never returns its argument and never changes the
    state: a true argument fails the first assertion, so the [return
    custom_name] after it is dead.  When the call returns, the argument was
    false, the global held a true document, and the result is the
    document's true [name] or else a string ([PROJECT_NAME] or the default
    name). *)
Theorem X17_get_name_argument_rejected custom st :
  fst (get_name custom st) = st /\
  (py_truthy custom = true ->
   snd (get_name custom st) = Raise (AssertionError DEPRECATED)) /\
  (forall v, snd (get_name custom st) = Ok v ->
     py_truthy custom = false /\
     exists d, SoftwareEnv st = VDict d /\ d <> [] /\
       (v = PyDict.get d "name" VNone /\ py_truthy v = true \/
        py_truthy (PyDict.get d "name" VNone) = false /\ exists s, v = VStr s)).
Proof.
  unfold get_name. cbv [bind gets ret raise].
  destruct (py_truthy custom) eqn:Hc; simpl.
  { split; [reflexivity|]. split; [reflexivity|]. intros v [=]. }
  split.
  { destruct (py_truthy (SoftwareEnv st)); simpl; [|reflexivity].
    destruct (SoftwareEnv st); try reflexivity.
    now destruct (py_truthy (PyDict.get d "name" VNone)). }
  split; [discriminate|].
  intros v H. split; [reflexivity|].
  destruct (py_truthy (SoftwareEnv st)) eqn:Ht; simpl in H; [|discriminate H].
  destruct (SoftwareEnv st) as [| | | |l|d]; try discriminate H.
  exists d. split; [reflexivity|]. split; [intros ->; discriminate Ht|].
  destruct (py_truthy (PyDict.get d "name" VNone)) eqn:Hn; simpl in H;
    injection H as <-.
  - left. now split.
  - right. split; [reflexivity|]. eexists. reflexivity.
Qed.

(** X17, for a caller that passes a name. *)
Lemma X17_witness :
  snd (get_name (VStr "mine") (fresh_state [] [])) = Raise (AssertionError DEPRECATED).
Proof.
  exact (proj1 (proj2 (X17_get_name_argument_rejected (VStr "mine") (fresh_state [] [])))
           eq_refl).
Defined.


(* ====================================================================== *)
(** ** Connection dictionaries *)
(* ====================================================================== *)

Lemma has_lookup d k :
  has d k = match PyDict.lookup d k with Some v => py_truthy v | None => false end.
Proof. unfold has, PyDict.get. now destruct (PyDict.lookup d k). Qed.

Lemma has_set_same d k v : has (PyDict.set d k v) k = py_truthy v.
Proof. now rewrite has_lookup, lookup_set_same. Qed.

Lemma has_set_other d k k' v : k <> k' -> has (PyDict.set d k v) k' = has d k'.
Proof. intros H. now rewrite !has_lookup, lookup_set_other. Qed.

Lemma set_same (d : Dict) k v : PyDict.lookup d k = Some v -> PyDict.set d k v = d.
Proof.
  induction d as [|[k0 v0] d IH]; simpl; [discriminate|].
  destruct (String.eqb_spec k0 k) as [->|Hne].
  - now intros [= ->].
  - intros H. now rewrite IH.
Qed.

Lemma fill_step_id (d : Dict) k v (c : bool) :
  (c = true -> PyDict.lookup d k = Some v) -> (if c then PyDict.set d k v else d) = d.
Proof. destruct c; [|reflexivity]. intros H. now apply set_same, H. Qed.

(** What the completed dictionary holds, key by key. *)
Lemma fill_lookup env d :
  let r := conn_fill env d in
  let given := has d "space_id" || has d "project_id" in
  PyDict.lookup r "url" =
    (if has d "url" then PyDict.lookup d "url" else Some (env_url env)) /\
  PyDict.lookup r "token" =
    (if has d "token" then PyDict.lookup d "token" else Some (env_token env)) /\
  PyDict.lookup r "space_id" =
    (if given then PyDict.lookup d "space_id" else Some (getenv env "SPACE_ID")) /\
  PyDict.lookup r "project_id" =
    (if given || py_truthy (getenv env "SPACE_ID") then PyDict.lookup d "project_id"
     else Some (getenv env "PROJECT_ID")) /\
  PyDict.lookup r "is_complete" = Some (VBool true) /\
  forall k, ~ In k CONN_KEYS -> PyDict.lookup r k = PyDict.lookup d k.
Proof.
  cbv zeta. unfold conn_fill. cbv zeta.
  set (d1 := if negb (has d "url") then PyDict.set d "url" (env_url env) else d).
  set (d2 := if negb (has d1 "token") then PyDict.set d1 "token" (env_token env) else d1).
  set (d3 := if negb (has d2 "space_id") && negb (has d2 "project_id")
             then PyDict.set d2 "space_id" (getenv env "SPACE_ID") else d2).
  set (d4 := if negb (has d3 "project_id") && negb (has d3 "space_id")
             then PyDict.set d3 "project_id" (getenv env "PROJECT_ID") else d3).
  assert (L1 : forall k, k <> "url" -> PyDict.lookup d1 k = PyDict.lookup d k).
  { intros k Hk. unfold d1. destruct (has d "url"); simpl; [reflexivity|].
    apply lookup_set_other. congruence. }
  assert (L2 : forall k, k <> "token" -> PyDict.lookup d2 k = PyDict.lookup d1 k).
  { intros k Hk. unfold d2. destruct (has d1 "token"); simpl; [reflexivity|].
    apply lookup_set_other. congruence. }
  assert (L3 : forall k, k <> "space_id" -> PyDict.lookup d3 k = PyDict.lookup d2 k).
  { intros k Hk. unfold d3.
    destruct (negb (has d2 "space_id") && negb (has d2 "project_id")); [|reflexivity].
    apply lookup_set_other. congruence. }
  assert (L4 : forall k, k <> "project_id" -> PyDict.lookup d4 k = PyDict.lookup d3 k).
  { intros k Hk. unfold d4.
    destruct (negb (has d3 "project_id") && negb (has d3 "space_id")); [|reflexivity].
    apply lookup_set_other. congruence. }
  assert (H2s : has d2 "space_id" = has d "space_id").
  { rewrite !has_lookup, L2, L1 by str_neq. reflexivity. }
  assert (H2p : has d2 "project_id" = has d "project_id").
  { rewrite !has_lookup, L2, L1 by str_neq. reflexivity. }
  assert (E3 : PyDict.lookup d3 "space_id" =
               if has d "space_id" || has d "project_id"
               then PyDict.lookup d "space_id" else Some (getenv env "SPACE_ID")).
  { unfold d3. rewrite H2s, H2p.
    destruct (has d "space_id"), (has d "project_id"); simpl;
      rewrite ?lookup_set_same, ?L2, ?L1 by str_neq; reflexivity. }
  assert (H3p : has d3 "project_id" = has d "project_id").
  { rewrite (has_lookup d3), L3 by str_neq. rewrite <- has_lookup. exact H2p. }
  assert (E4 : PyDict.lookup d4 "project_id" =
               if has d "space_id" || has d "project_id" || py_truthy (getenv env "SPACE_ID")
               then PyDict.lookup d "project_id" else Some (getenv env "PROJECT_ID")).
  { unfold d4. rewrite H3p, (has_lookup d3 "space_id"), E3.
    destruct (has d "project_id") eqn:Hp.
    { rewrite orb_true_r. simpl. rewrite L3, L2, L1 by str_neq. reflexivity. }
    destruct (has d "space_id") eqn:Hs; simpl.
    { rewrite has_lookup in Hs. destruct (PyDict.lookup d "space_id") as [v|]; [|discriminate].
      rewrite Hs. simpl. rewrite L3, L2, L1 by str_neq. reflexivity. }
    destruct (py_truthy (getenv env "SPACE_ID")); simpl.
    - rewrite L3, L2, L1 by str_neq. reflexivity.
    - apply lookup_set_same. }
  repeat split.
  - rewrite lookup_set_other, L4, L3, L2 by str_neq. unfold d1.
    destruct (has d "url"); simpl; [reflexivity|apply lookup_set_same].
  - rewrite lookup_set_other, L4, L3 by str_neq. unfold d2.
    assert (H1 : has d1 "token" = has d "token")
      by (rewrite !has_lookup, L1 by str_neq; reflexivity).
    rewrite H1. destruct (has d "token"); simpl.
    + apply L1. str_neq.
    + apply lookup_set_same.
  - rewrite lookup_set_other, L4 by str_neq. exact E3.
  - rewrite lookup_set_other by str_neq. exact E4.
  - apply lookup_set_same.
  - intros k Hk. unfold CONN_KEYS in Hk.
    rewrite lookup_set_other, L4, L3, L2, L1 by not_listed Hk. reflexivity.
Qed.


Lemma has_true d k :
  has d k = true -> exists v, PyDict.lookup d k = Some v /\ py_truthy v = true.
Proof.
  rewrite has_lookup. destruct (PyDict.lookup d k) as [v|]; [|discriminate].
  intros H. now exists v.
Qed.

(** A completed dictionary is left as it is by the fill-in step. *)
Lemma fill_fixed env d : conn_fill env (conn_fill env d) = conn_fill env d.
Proof.
  destruct (fill_lookup env d) as (Lu & Lt & Ls & Lp & Lc & _).
  cbv zeta in Lu, Lt, Ls, Lp, Lc.
  set (r := conn_fill env d) in *.
  assert (S1 : (if negb (has r "url") then PyDict.set r "url" (env_url env) else r) = r).
  { apply fill_step_id. rewrite has_lookup, Lu.
    destruct (has d "url") eqn:E; [|reflexivity].
    apply has_true in E as (v & -> & ->). discriminate. }
  assert (S2 : (if negb (has r "token") then PyDict.set r "token" (env_token env) else r) = r).
  { apply fill_step_id. rewrite has_lookup, Lt.
    destruct (has d "token") eqn:E; [|reflexivity].
    apply has_true in E as (v & -> & ->). discriminate. }
  assert (S3 : (if negb (has r "space_id") && negb (has r "project_id")
                then PyDict.set r "space_id" (getenv env "SPACE_ID") else r) = r).
  { apply fill_step_id. rewrite !has_lookup, Ls, Lp.
    destruct (has d "space_id") eqn:Es; cbn [orb].
    { apply has_true in Es as (v & -> & ->). discriminate. }
    destruct (has d "project_id") eqn:Ep; cbn [orb]; [|reflexivity].
    apply has_true in Ep as (v & -> & ->). cbn [negb]. rewrite andb_false_r. discriminate. }
  assert (S4 : (if negb (has r "project_id") && negb (has r "space_id")
                then PyDict.set r "project_id" (getenv env "PROJECT_ID") else r) = r).
  { apply fill_step_id. rewrite !has_lookup, Ls, Lp.
    destruct (has d "space_id") eqn:Es; cbn [orb].
    { apply has_true in Es as (v & -> & ->). cbn [negb]. rewrite andb_false_r.
      discriminate. }
    destruct (has d "project_id") eqn:Ep; cbn [orb].
    { apply has_true in Ep as (v & -> & ->). discriminate. }
    destruct (py_truthy (getenv env "SPACE_ID")); [|reflexivity].
    cbn [negb]. rewrite andb_false_r. discriminate. }
  unfold conn_fill at 1. cbv zeta. rewrite S1, S2, S3, S4.
  now apply set_same.
Qed.

(** X18.  Completing a connection is idempotent: under the same
    environment, [_cpd_conn_complete] applied to its own result returns it
    unchanged, for a dictionary as for a client object. *)
Theorem X18_conn_complete_idempotent env access_info :
  _cpd_conn_complete env (InfoDict (_cpd_conn_complete env access_info)) =
  _cpd_conn_complete env access_info.
Proof. unfold _cpd_conn_complete. simpl conn_init. apply fill_fixed. Qed.

(** X19.  What a caller passes wins over the environment: a true [url] or
    [token] of the dictionary is kept, every key other than [url], [token],
    [space_id], [project_id] and [is_complete] is kept, and the result is
    marked complete. *)
Theorem X19_conn_given_values_kept env d :
  let r := _cpd_conn_complete env (InfoDict d) in
  (has d "url" = true -> PyDict.lookup r "url" = PyDict.lookup d "url") /\
  (has d "token" = true -> PyDict.lookup r "token" = PyDict.lookup d "token") /\
  (forall k, ~ In k CONN_KEYS -> PyDict.lookup r k = PyDict.lookup d k) /\
  PyDict.lookup r "is_complete" = Some (VBool true).
Proof.
  cbv zeta. unfold _cpd_conn_complete. simpl conn_init.
  destruct (fill_lookup env d) as (Lu & Lt & _ & _ & Lc & Lo).
  cbv zeta in Lu, Lt, Lc, Lo.
  split; [intros H; now rewrite Lu, H|].
  split; [intros H; now rewrite Lt, H|].
  split; [exact Lo|exact Lc].
Qed.

(** X19, for a dictionary with its own url and a version. *)
Lemma X19_witness :
  let d := [("url", VStr "https://cpd.example.com"); ("version", VStr "2021-06-01")] in
  let r := _cpd_conn_complete [("RUNTIME_ENV_APSX_URL", "https://other")] (InfoDict d) in
  PyDict.lookup r "url" = Some (VStr "https://cpd.example.com").
Proof.
  intros d r.
  exact (proj1 (X19_conn_given_values_kept [("RUNTIME_ENV_APSX_URL", "https://other")] d)
           eq_refl).
Defined.

(** X20.  The scope of a connection.  If the caller gave a true [space_id]
    or [project_id], neither key is touched.  Otherwise [space_id] is set
    to [SPACE_ID] of the environment, and [project_id] is set to
    [PROJECT_ID] only when [SPACE_ID] is unset or empty: the two ids are
    never both taken from the environment. *)
Theorem X20_conn_scope_from_environment env d :
  let r := _cpd_conn_complete env (InfoDict d) in
  (has d "space_id" || has d "project_id" = true ->
   PyDict.lookup r "space_id" = PyDict.lookup d "space_id" /\
   PyDict.lookup r "project_id" = PyDict.lookup d "project_id") /\
  (has d "space_id" || has d "project_id" = false ->
   PyDict.lookup r "space_id" = Some (getenv env "SPACE_ID") /\
   (env_true env "SPACE_ID" = true ->
    PyDict.lookup r "project_id" = PyDict.lookup d "project_id") /\
   (env_true env "SPACE_ID" = false ->
    PyDict.lookup r "project_id" = Some (getenv env "PROJECT_ID"))).
Proof.
  cbv zeta. unfold _cpd_conn_complete. simpl conn_init.
  destruct (fill_lookup env d) as (_ & _ & Ls & Lp & _).
  cbv zeta in Ls, Lp.
  assert (Ht : py_truthy (getenv env "SPACE_ID") = env_true env "SPACE_ID").
  { unfold getenv, env_true. now destruct (env_lookup env "SPACE_ID"). }
  rewrite Ht in Lp.
  split; intros H; rewrite H in Ls, Lp; simpl in Lp.
  - now split.
  - split; [exact Ls|]. split; intros E; now rewrite E in Lp.
Qed.

(** X20, with both ids in the environment and none given. *)
Lemma X20_witness :
  let env := [("SPACE_ID", "sp1"); ("PROJECT_ID", "pr1")] in
  let r := _cpd_conn_complete env (InfoDict []) in
  PyDict.lookup r "space_id" = Some (VStr "sp1") /\
  PyDict.lookup r "project_id" = None.
Proof.
  intros env r.
  destruct (proj2 (X20_conn_scope_from_environment env []) eq_refl) as (H1 & H2 & _).
  split; [exact H1|exact (H2 eq_refl)].
Defined.


Lemma substring_all t : String.substring 0 (String.length t) t = t.
Proof. induction t as [|c t IH]; simpl; [reflexivity|now rewrite IH]. Qed.

(** The token of the environment when [USER_ACCESS_TOKEN] starts with
    ["bearer "] in some letter case. *)
Lemma env_token_bearer env p t :
  env_lookup env "USER_ACCESS_TOKEN" = Some (p ++ t) ->
  lower p = "bearer " ->
  env_token env = VStr t.
Proof.
  intros Hu Hp. unfold env_token. rewrite Hu.
  destruct p as [|c1 [|c2 [|c3 [|c4 [|c5 [|c6 [|c7 [|c8 p]]]]]]]]; try discriminate Hp.
  simpl in Hp. injection Hp as H1 H2 H3 H4 H5 H6 H7.
  unfold PyStr.startswith, PyStr.slice_from.
  cbn [String.append lower py_truthy String.eqb negb andb].
  rewrite H1, H2, H3, H4, H5, H6, H7.
  assert (Hpre : String.prefix "bearer " ("bearer " ++ lower t) = true).
  { cbn [String.append String.prefix]. repeat (destruct (ascii_dec _ _); [|congruence]).
    now destruct (lower t). }
  cbn [String.append] in Hpre. rewrite Hpre.
  replace (Z.to_nat 7) with 7%nat by reflexivity.
  cbn [String.length Nat.sub String.substring].
  now rewrite Nat.sub_0_r, substring_all.
Qed.

(** X21.  A token taken from [USER_ACCESS_TOKEN] loses a leading
    ["bearer "], whatever the case of its letters: when the caller gave no
    token, the completed connection holds what follows the prefix. *)
Theorem X21_bearer_prefix_stripped env d p t :
  has d "token" = false ->
  env_lookup env "USER_ACCESS_TOKEN" = Some (p ++ t) ->
  lower p = "bearer " ->
  PyDict.lookup (_cpd_conn_complete env (InfoDict d)) "token" = Some (VStr t).
Proof.
  intros Hd Hu Hp. unfold _cpd_conn_complete. simpl conn_init.
  destruct (fill_lookup env d) as (_ & Lt & _). cbv zeta in Lt.
  rewrite Lt, Hd. f_equal. now apply (env_token_bearer env p t).
Qed.

(** X21, with a capitalized prefix. *)
Lemma X21_witness :
  PyDict.lookup
    (_cpd_conn_complete [("USER_ACCESS_TOKEN", "Bearer abc.def")]
       (InfoDict [("space_id", VStr "sp1")])) "token" = Some (VStr "abc.def").
Proof.
  exact (X21_bearer_prefix_stripped [("USER_ACCESS_TOKEN", "Bearer abc.def")]
           [("space_id", VStr "sp1")] "Bearer " "abc.def" eq_refl eq_refl eq_refl).
Defined.

(** X22.  [PROJECT_ACCESS_TOKEN] is read only when [USER_ACCESS_TOKEN] is
    not set at all: a [USER_ACCESS_TOKEN] that is set but empty makes the
    token of the connection the empty string, whatever
    [PROJECT_ACCESS_TOKEN] holds. *)
Theorem X22_empty_user_token_shadows_project_token env d :
  has d "token" = false ->
  env_lookup env "USER_ACCESS_TOKEN" = Some "" ->
  PyDict.lookup (_cpd_conn_complete env (InfoDict d)) "token" = Some (VStr "").
Proof.
  intros Hd Hu. unfold _cpd_conn_complete. simpl conn_init.
  destruct (fill_lookup env d) as (_ & Lt & _). cbv zeta in Lt.
  rewrite Lt, Hd. unfold env_token. now rewrite Hu.
Qed.

(** X22, with a project token in the environment. *)
Lemma X22_witness :
  PyDict.lookup
    (_cpd_conn_complete [("PROJECT_ACCESS_TOKEN", "secret"); ("USER_ACCESS_TOKEN", "")]
       (InfoDict [])) "token" = Some (VStr "").
Proof.
  exact (X22_empty_user_token_shadows_project_token
           [("PROJECT_ACCESS_TOKEN", "secret"); ("USER_ACCESS_TOKEN", "")] []
           eq_refl eq_refl).
Defined.

Lemma getenv_true env k :
  env_true env k = true -> getenv env k = VStr (env_get env k).
Proof.
  unfold env_true, getenv, env_get. now destruct (env_lookup env k).
Qed.

(** X23.  The connection [download_pending_assets] hands to the asset
    store names one scope only, and completing it keeps that: the url and
    the token come from the environment, [space_id] is [SPACE_ID] when that
    is set and not empty and there is no [project_id] then; otherwise
    [project_id] is [PROJECT_ID] and there is no [space_id]. *)
Theorem X23_pending_connection_completed env c :
  pending_conn env = Ok c ->
  let r := _cpd_conn_complete env (InfoDict c) in
  PyDict.lookup r "url" = Some (env_url env) /\
  PyDict.lookup r "token" = Some (env_token env) /\
  (env_true env "SPACE_ID" = true ->
   PyDict.lookup r "space_id" = Some (getenv env "SPACE_ID") /\
   PyDict.lookup r "project_id" = None) /\
  (env_true env "SPACE_ID" = false ->
   PyDict.lookup r "project_id" = Some (getenv env "PROJECT_ID") /\
   PyDict.lookup r "space_id" = None).
Proof.
  intros Hc. cbv zeta. unfold _cpd_conn_complete. simpl conn_init.
  destruct (fill_lookup env c) as (Lu & Lt & Ls & Lp & _).
  cbv zeta in Lu, Lt, Ls, Lp. unfold pending_conn in Hc.
  destruct (env_true env "SPACE_ID") eqn:Es.
  - injection Hc as <-. pose proof (getenv_true env "SPACE_ID" Es) as Hg.
    assert (Hv : env_get env "SPACE_ID" <> "").
    { unfold env_true, env_get in *. destruct (env_lookup env "SPACE_ID") as [v|];
        [|discriminate]. intros ->. discriminate Es. }
    apply String.eqb_neq in Hv.
    unfold has, PyDict.get in Lu, Lt, Ls, Lp. simpl in Lu, Lt, Ls, Lp.
    rewrite Hv in Ls, Lp. simpl in Ls, Lp.
    repeat split; try assumption; try discriminate. now rewrite Hg.
  - destruct (env_true env "PROJECT_ID") eqn:Ep; [|discriminate Hc].
    injection Hc as <-. pose proof (getenv_true env "PROJECT_ID" Ep) as Hg.
    assert (Hv : env_get env "PROJECT_ID" <> "").
    { unfold env_true, env_get in *. destruct (env_lookup env "PROJECT_ID") as [v|];
        [|discriminate]. intros ->. discriminate Ep. }
    apply String.eqb_neq in Hv.
    unfold has, PyDict.get in Lu, Lt, Ls, Lp. simpl in Lu, Lt, Ls, Lp.
    rewrite Hv in Ls, Lp. simpl in Ls, Lp.
    repeat split; try assumption; try discriminate. now rewrite Hg.
Qed.

(** X23, in a deployment space. *)
Lemma X23_witness :
  let env := [("USER_ACCESS_TOKEN", "tok"); ("SPACE_ID", "sp1"); ("PROJECT_ID", "pr1")] in
  let r := _cpd_conn_complete env (InfoDict [("space_id", VStr "sp1")]) in
  PyDict.lookup r "space_id" = Some (VStr "sp1") /\ PyDict.lookup r "project_id" = None.
Proof.
  intros env r.
  exact (proj1 (proj2 (proj2 (X23_pending_connection_completed env _ eq_refl))) eq_refl).
Defined.


(** The completion of a dictionary that names one scope by a non-empty
    string. *)
Lemma fill_one_scope env k other v :
  k = "space_id" /\ other = "project_id" \/ k = "project_id" /\ other = "space_id" ->
  v <> "" ->
  PyDict.lookup (conn_fill env [(k, VStr v)]) k = Some (VStr v) /\
  PyDict.lookup (conn_fill env [(k, VStr v)]) other = None.
Proof.
  intros Hk Hv. apply String.eqb_neq in Hv.
  destruct (fill_lookup env [(k, VStr v)]) as (_ & _ & Ls & Lp & _).
  cbv zeta in Ls, Lp. unfold has, PyDict.get in Ls, Lp.
  destruct Hk as [[-> ->]|[-> ->]]; simpl in Ls, Lp; rewrite Hv in Ls, Lp;
    simpl in Ls, Lp; now split.
Qed.

(** X24.  The two default connections.  With a non-empty [PROJECT_ID],
    [_cpd_conn_default_project] returns a connection scoped to that project
    and without [space_id], also when [SPACE_ID] is set; likewise
    [_cpd_conn_default_space] with a non-empty [SPACE_ID].  A variable that
    is not set is a [KeyError]. *)
Theorem X24_default_connection_scope env :
  (env_true env "PROJECT_ID" = true ->
   exists r, _cpd_conn_default_project env = Ok r /\
     PyDict.lookup r "project_id" = Some (getenv env "PROJECT_ID") /\
     PyDict.lookup r "space_id" = None) /\
  (env_true env "SPACE_ID" = true ->
   exists r, _cpd_conn_default_space env = Ok r /\
     PyDict.lookup r "space_id" = Some (getenv env "SPACE_ID") /\
     PyDict.lookup r "project_id" = None) /\
  (env_lookup env "PROJECT_ID" = None ->
   _cpd_conn_default_project env = Raise (KeyError "PROJECT_ID")) /\
  (env_lookup env "SPACE_ID" = None ->
   _cpd_conn_default_space env = Raise (KeyError "SPACE_ID")).
Proof.
  unfold _cpd_conn_default_project, _cpd_conn_default_space, _cpd_conn_complete,
    env_true, getenv.
  repeat split.
  - destruct (env_lookup env "PROJECT_ID") as [v|]; [|discriminate].
    intros Hv. eexists. split; [reflexivity|]. simpl conn_init.
    apply (fill_one_scope env "project_id" "space_id" v); [now right|].
    intros ->. discriminate Hv.
  - destruct (env_lookup env "SPACE_ID") as [v|]; [|discriminate].
    intros Hv. eexists. split; [reflexivity|]. simpl conn_init.
    apply (fill_one_scope env "space_id" "project_id" v); [now left|].
    intros ->. discriminate Hv.
  - now intros ->.
  - now intros ->.
Qed.

(** X24, in a project run that also knows a space. *)
Lemma X24_witness :
  let env := [("PROJECT_ID", "pr1"); ("SPACE_ID", "sp1")] in
  exists r, _cpd_conn_default_project env = Ok r /\
    PyDict.lookup r "project_id" = Some (VStr "pr1") /\
    PyDict.lookup r "space_id" = None.
Proof.
  intros env. exact (proj1 (X24_default_connection_scope env) eq_refl).
Defined.
